(** * unittest_patterns.spies: subset checker, spy factory, async context mock

    A shallow embedding of [src/unittest_patterns/spies.py].

    - [Subset]: [is_subset_of], on Python dictionaries modelled as
      [gmap string V].
    - [MockLib]: the part of [unittest.mock] that the factory drives: the
      constructor of a wrapper class and the lookup of an attribute on a
      mock.
    - [Spy]: [make_spy] and the [_SpyFactory] it returns, in a state and
      exception monad over the objects the code allocates and a trace of the
      calls it makes to the target and to the wrapper class.
    - [Async]: the two coroutine methods of [AsyncContextManagerMock]. *)

From stdpp Require Import gmap strings list fin_maps pretty.
From Stdlib Require Import ZArith Strings.Byte.

Local Open Scope string_scope.

(* ===================================================================== *)
(** ** The contract subset checker *)
(* ===================================================================== *)

Module Subset.

(** [ValueTypes = int | str | bytes | float | bool].  A float is kept by
    value as a dyadic rational or an infinity.  NaN is left out: a container
    compares a NaN by object identity, which a by-value model cannot tell. *)
Inductive PyFloat :=
| FDyadic (m : Z) (e : Z)          (* m * 2^e *)
| FInf (negative : bool).

Inductive ValueTypes :=
| VInt (z : Z)
| VStr (s : string)
| VBytes (b : list Byte.byte)
| VFloat (f : PyFloat)
| VBool (b : bool).

#[local] Instance byte_eq_dec : EqDecision Byte.byte := Byte.byte_eq_dec.

(** Exact comparison of [m1 * 2^e1] with [m2 * 2^e2]. *)
Definition dyadic_eqb (m1 e1 m2 e2 : Z) : bool :=
  let e := Z.min e1 e2 in
  (m1 * 2 ^ (e1 - e) =? m2 * 2 ^ (e2 - e))%Z.

Definition float_eqb (f g : PyFloat) : bool :=
  match f, g with
  | FDyadic m1 e1, FDyadic m2 e2 => dyadic_eqb m1 e1 m2 e2
  | FInf s1, FInf s2 => Bool.eqb s1 s2
  | _, _ => false
  end.

(** The numeric tower: [bool] is a subclass of [int], and an [int] is
    compared with a [float] exactly. *)
Definition as_number (v : ValueTypes) : option PyFloat :=
  match v with
  | VInt z => Some (FDyadic z 0)
  | VBool b => Some (FDyadic (if b then 1 else 0) 0)
  | VFloat f => Some f
  | VStr _ | VBytes _ => None
  end.

(** Python's [==] on [ValueTypes]. *)
Definition value_eq (x y : ValueTypes) : bool :=
  match x, y with
  | VStr s, VStr t => bool_decide (s = t)
  | VBytes a, VBytes b => bool_decide (a = b)
  | _, _ =>
      match as_number x, as_number y with
      | Some f, Some g => float_eqb f g
      | _, _ => false
      end
  end.

Section Checker.

(** The checker never looks inside a value: it only compares values with the
    equality test of the container, [eqv found value]. *)
Context {V : Type} (eqv : V → V → bool).

Definition PairTypes : Type := string * V.

(** [CollectionTypes]: a tuple, a list or a set of pairs, or a dict.  A set
    is given by its pairs in iteration order. *)
Inductive CollectionTypes :=
| CTuple (items : list PairTypes)
| CList (items : list PairTypes)
| CSet (items : list PairTypes)
| CDict (d : gmap string V).

(** [dict(iterable)]: the pairs are stored one after the other, so a later
    pair overwrites an earlier one with the same key. *)
Definition dict_of_pairs (items : list PairTypes) : gmap string V :=
  fold_left (λ d kv, <[kv.1 := kv.2]> d) items ∅.

Definition dict_ (c : CollectionTypes) : gmap string V :=
  match c with
  | CTuple items | CList items | CSet items => dict_of_pairs items
  | CDict d => d
  end.

(** [(key, value) in d.items()]: look the key up, then compare the value
    found with the value given. *)
Definition items_contains (d : gmap string V) (kv : PairTypes) : bool :=
  match d !! kv.1 with
  | Some found => eqv found kv.2
  | None => false
  end.

(** [a.items() <= b.items()]: the length test first, then every item of [a]
    is looked up in [b]. *)
Definition items_le (a b : gmap string V) : bool :=
  (size a <=? size b)%nat && forallb (items_contains b) (map_to_list a).

Definition is_subset_of (superset subset : CollectionTypes) : bool :=
  items_le (dict_ subset) (dict_ superset).

(** The same in the words of the specification: every pair of the subset's
    mapping is present with an equal value in the superset's mapping. *)
Definition every_pair_present (sup sub : gmap string V) : Prop :=
  ∀ k v, sub !! k = Some v → ∃ v', sup !! k = Some v' ∧ eqv v' v = true.

End Checker.

Arguments CollectionTypes : clear implicits.
Arguments PairTypes : clear implicits.

End Subset.

(* ===================================================================== *)
(** ** Python values, exceptions and the state the code runs in *)
(* ===================================================================== *)

Module Py.

Definition loc := nat.

(** The type objects [type(x)] can evaluate to: the three that [make_spy]
    names, and any other type object, known by its [__name__]. *)
Inductive TypeId :=
| type_                          (* builtins.type *)
| ABCMeta                        (* abc.ABCMeta *)
| FunctionType                   (* types.FunctionType *)
| OtherType (name : string).

#[global] Instance TypeId_eq_dec : EqDecision TypeId.
Proof. solve_decision. Defined.

Definition type_name (t : TypeId) : string :=
  match t with
  | type_ => "type"
  | ABCMeta => "ABCMeta"
  | FunctionType => "function"
  | OtherType name => name
  end.

(** A class object: its [__name__], its metaclass [type(cls)], the listing
    [dir(cls)] and its [__doc__]. *)
Record Class := {
  cls_name : string;
  cls_type : TypeId;
  cls_dir : list string;
  cls_doc : option string;
}.

Inductive Value :=
| VNone
| VBool (b : bool)
| VInt (z : Z)
| VStr (s : string)
| VClass (c : Class)
| VFunction (name : string)         (* a [def] or a [lambda] *)
| VObj (cls : string) (l : loc)     (* an object of the ambient program *)
| VMock (cls : string) (l : loc)    (* a mock made by a wrapper class *)
| VFuture (l : loc).                (* an [asyncio.Future] *)

#[global] Instance Class_eq_dec : EqDecision Class.
Proof. solve_decision. Defined.

#[global] Instance Value_eq_dec : EqDecision Value.
Proof. solve_decision. Defined.

Definition type_of (v : Value) : TypeId :=
  match v with
  | VNone => OtherType "NoneType"
  | VBool _ => OtherType "bool"
  | VInt _ => OtherType "int"
  | VStr _ => OtherType "str"
  | VClass c => cls_type c
  | VFunction _ => FunctionType
  | VObj cls _ | VMock cls _ => OtherType cls
  | VFuture _ => OtherType "Future"
  end.

(** [isinstance(v, type)]: the value is a class object. *)
Definition is_class (v : Value) : bool :=
  match v with VClass _ => true | _ => false end.

(** Truth value testing.  A [Future] and a mock define neither [__bool__]
    to false nor [__len__], so they are true like any plain object; for an
    object of the ambient program this is the default truth value. *)
Definition truthy (v : Value) : bool :=
  match v with
  | VNone => false
  | VBool b => b
  | VInt z => negb (z =? 0)%Z
  | VStr s => negb (String.eqb s "")
  | VClass _ | VFunction _ | VObj _ _ | VMock _ _ | VFuture _ => true
  end.

Inductive Exception :=
| TypeError (msg : string)
| AttributeError (msg : string)
| InvalidStateError (msg : string)
| InvalidSpecError (spec : Value)   (* [unittest.mock.InvalidSpecError] *)
| Raised (kind msg : string).       (* any other exception *)

Inductive Result (A : Type) :=
| Ok (a : A)
| Raise (e : Exception).
Arguments Ok {A} a.
Arguments Raise {A} e.

(** [x.__name__], for the values that have one. *)
Definition getattr_name (v : Value) : Result string :=
  match v with
  | VClass c => Ok (cls_name c)
  | VFunction name => Ok name
  | _ => Raise (AttributeError
                  ("'" ++ type_name (type_of v) ++ "' object has no attribute '__name__'"))
  end.

(** [dict.update]: the bindings of [other] replace those of [d]. *)
Definition dict_update (d other : gmap string Value) : gmap string Value :=
  other ∪ d.

(** *** The wrapper classes: the fragment of [unittest.mock] that is driven *)

(** The class of [unittest.mock] that a wrapper class is or derives from. *)
Inductive MockKind :=
| KMock
| KMagicMock
| KAsyncMock.

(** The kinds that have [MagicMixin] among their bases. *)
Definition is_magic (k : MockKind) : bool :=
  match k with KMock => false | KMagicMock | KAsyncMock => true end.

(** The kinds that have [AsyncMockMixin] among their bases. *)
Definition is_async (k : MockKind) : bool :=
  match k with KAsyncMock => true | KMock | KMagicMock => false end.

(** A wrapper class, [type[Mock]]: a class of [unittest.mock], or a subclass
    of one that defines further members and leaves the constructor and the
    attribute hooks of the library as they are, as
    [AsyncContextManagerMock] does.  [mc_members] are the names that the
    class and its bases define, together with those that [__init__] puts in
    the dictionary of a new instance. *)
Record MockClass := {
  mc_name : string;
  mc_kind : MockKind;
  mc_members : list string;
}.

Inductive SpecClass :=
| NoSpec
| SpecIs (c : Class)                (* the spec is this class *)
| SpecTypeOf (spec : Value).        (* the spec is an object: its type *)

(** A mock object: the attributes of the instance that this development
    follows.  [mock_magics] are the names that [_mock_set_magics] has set on
    the class of the instance (every mock has a class of its own, a subclass
    of the wrapper class); [mock_dict] are the names put in the dictionary
    of the instance since [__init__]. *)
Record Mock := {
  mock_class : MockClass;
  _mock_name : Value;
  _spec_class : SpecClass;
  _spec_set : bool;
  _mock_methods : option (list string);
  _mock_wraps : Value;
  _mock_unsafe : Value;
  mock_magics : list string;
  mock_dict : list string;
  mock_doc : option string;
}.

(** [object.__setattr__(mock, "__doc__", doc)]. *)
Definition set_mock_doc (doc : option string) (m : Mock) : Mock :=
  {| mock_class := mock_class m; _mock_name := _mock_name m;
     _spec_class := _spec_class m; _spec_set := _spec_set m;
     _mock_methods := _mock_methods m; _mock_wraps := _mock_wraps m;
     _mock_unsafe := _mock_unsafe m; mock_magics := mock_magics m;
     mock_dict := if bool_decide ("__doc__" ∈ mock_dict m) then mock_dict m
                  else "__doc__" :: mock_dict m;
     mock_doc := doc |}.

(** [object.__setattr__(mock, "_mock_wraps", value)]: the name is in the
    dictionary of every mock, its value is replaced. *)
Definition set_mock_wraps (value : Value) (m : Mock) : Mock :=
  {| mock_class := mock_class m; _mock_name := _mock_name m;
     _spec_class := _spec_class m; _spec_set := _spec_set m;
     _mock_methods := _mock_methods m; _mock_wraps := value;
     _mock_unsafe := _mock_unsafe m; mock_magics := mock_magics m;
     mock_dict := mock_dict m; mock_doc := mock_doc m |}.

Inductive FutureState :=
| Pending
| Finished (result : Value).

(** What spies.py itself calls: the target, and the wrapper class. *)
Inductive Event :=
| EvCall (f : Value) (args : list Value) (kwargs : gmap string Value)
| EvWrapper (w : MockClass) (args : list Value) (kw : gmap string Value).

Definition is_call (ev : Event) : bool :=
  match ev with
  | EvCall _ _ _ => true
  | EvWrapper _ _ _ => false
  end.

(** How many times the code has called into the ambient program. *)
Definition calls_made (tr : list Event) : nat := length (filter is_call tr).

(** What lies outside spies.py and is not followed further, so that every
    property holds whatever it does.

    The ambient program: what calling one of its objects does to its own
    state [U], what [x.__doc__] reads, and [dir(x)] for an object that is
    not a class.  Its state changes when one of its objects is called;
    reading an attribute of one of its objects is taken to leave it as it
    is.

    The rest of the mock library.  [py_configure] is what [__init__] goes on
    to do when keywords are left for [configure_mock], which sets attributes
    on the new mock and on its children and may reach other mocks: given the
    wrapper class, those keywords, the ambient state, the place of the new
    mock, what [__init__] has made of it so far and the mocks there are, it
    answers what becomes of the new mock, or the exception raised, and what
    becomes of the other mocks.  [py_first_keyword] picks, among the
    keywords of a call that name a parameter already filled by position, the
    one written first: a [gmap] does not keep the order in which the caller
    wrote them.  Nothing is assumed of either. *)
Record Runtime (U : Type) := {
  py_call : Value → list Value → gmap string Value → U → Result Value * U;
  py_doc : Value → U → option string;
  py_dir : Value → list string;
  py_configure : MockClass → gmap string Value → U → loc → Mock →
                 gmap loc Mock → Result Mock * gmap loc Mock;
  py_first_keyword : list string → string;
}.
Arguments py_call {U} _ _ _ _ _.
Arguments py_doc {U} _ _ _.
Arguments py_dir {U} _ _.
Arguments py_configure {U} _ _ _ _ _ _ _.
Arguments py_first_keyword {U} _ _.

(** The state: that of the ambient program, the mocks and the futures
    allocated so far, and the calls that spies.py has made. *)
Record State (U : Type) := {
  world : U;
  mocks : gmap loc Mock;
  futures : gmap loc FutureState;
  trace : list Event;
}.
Arguments world {U} _.
Arguments mocks {U} _.
Arguments futures {U} _.
Arguments trace {U} _.

(** Computations that read and change the state and may raise. *)
Definition M (U A : Type) : Type := State U → Result A * State U.

Definition ret {U A} (a : A) : M U A := λ st, (Ok a, st).

Definition raise {U A} (e : Exception) : M U A := λ st, (Raise e, st).

Definition bind {U A B} (c : M U A) (k : A → M U B) : M U B :=
  λ st, match c st with
        | (Ok a, st') => k a st'
        | (Raise e, st') => (Raise e, st')
        end.

Definition lift {U A} (r : Result A) : M U A := λ st, (r, st).

(** The [__name__] of [getattr(x, "__class__", object)].  Every object has
    a [__class__], so the default is never taken.  A mock answers with the
    class of its spec when it has one, and with its own class otherwise; any
    other object is taken to answer with its type. *)
Definition class_name_of {U} (st : State U) (v : Value) : string :=
  match v with
  | VMock cls l =>
      match mocks st !! l with
      | Some m =>
          match _spec_class m with
          | NoSpec => cls
          | SpecIs c => cls_name c
          | SpecTypeOf spec => type_name (type_of spec)
          end
      | None => cls
      end
  | _ => type_name (type_of v)
  end.

Definition getattr_class_name {U} (v : Value) : M U string :=
  λ st, (Ok (class_name_of st v), st).

Definition log {U} (ev : Event) : M U unit :=
  λ st, (Ok tt, {| world := world st; mocks := mocks st;
                   futures := futures st; trace := trace st ++ [ev] |}).

End Py.

Notation "'let*' x ':=' c 'in' k" := (Py.bind c (λ x, k))
  (at level 10, x name, c at level 100, k at level 200).
Notation "c ';;' k" := (Py.bind c (λ _, k))
  (at level 100, k at level 200, right associativity).

(* ===================================================================== *)
(** ** The wrapper classes: the fragment of [unittest.mock] that is driven *)
(* ===================================================================== *)

Module MockLib.
Import Py.

(** [repr] of an attribute name. *)
Definition repr (s : string) : string := "'" ++ s ++ "'".

(** The parameters of [NonCallableMock.__init__] after [self], in order.
    [__new__] binds the arguments of the call to this signature. *)
Definition New_params : list string :=
  ["spec"; "wraps"; "name"; "spec_set"; "parent"; "_spec_state";
   "_new_name"; "_new_parent"; "_spec_as_instance"; "_eat_self"; "unsafe"].

(** The parameters of [CallableMixin.__init__] after [self], in order: the
    positional parameters of [Mock(...)]. *)
Definition Mock_params : list string :=
  ["spec"; "side_effect"; "return_value"; "wraps"; "name"; "spec_set";
   "parent"; "_spec_state"; "_new_name"; "_new_parent"].

(** The keywords that a parameter of the constructor takes.  Every other
    keyword ends in the [kwargs] of [NonCallableMock.__init__]. *)
Definition Mock_named : list string :=
  Mock_params ++ ["_spec_as_instance"; "_eat_self"; "unsafe"].

(** [Signature.bind_partial] with [n] positional arguments: they take the
    parameters in order; a parameter that a keyword names as well, or an
    argument with no parameter left, is a [TypeError]. *)
Fixpoint bind_partial (params : list string) (n : nat)
    (kw : gmap string Value) : Result unit :=
  match n, params with
  | O, _ => Ok tt
  | S _, [] => Raise (TypeError "too many positional arguments")
  | S n', p :: params' =>
      if bool_decide (is_Some (kw !! p))
      then Raise (TypeError ("multiple values for argument " ++ repr p))
      else bind_partial params' n' kw
  end.

(** The parameters read here, [spec], [spec_set], [name] and [wraps]: one
    that was not passed has its default, [None]. *)
Definition param (kw : gmap string Value) (name : string) : Value :=
  default VNone (kw !! name).

Definition is_None (v : Value) : bool :=
  match v with VNone => true | _ => false end.

Definition _all_magics : list string :=
  ["__abs__"; "__add__"; "__aenter__"; "__aexit__"; "__aiter__"; "__and__";
   "__anext__"; "__bool__"; "__ceil__"; "__complex__"; "__contains__";
   "__delete__"; "__delitem__"; "__dir__"; "__divmod__"; "__enter__";
   "__eq__"; "__exit__"; "__float__"; "__floor__"; "__floordiv__";
   "__format__"; "__fspath__"; "__ge__"; "__get__"; "__getformat__";
   "__getinitargs__"; "__getitem__"; "__getnewargs__"; "__getnewargs_ex__";
   "__getstate__"; "__gt__"; "__hash__"; "__iadd__"; "__iand__";
   "__ifloordiv__"; "__ilshift__"; "__imatmul__"; "__imod__"; "__imul__";
   "__index__"; "__int__"; "__invert__"; "__ior__"; "__ipow__";
   "__irshift__"; "__isub__"; "__iter__"; "__itruediv__"; "__ixor__";
   "__le__"; "__len__"; "__lshift__"; "__lt__"; "__matmul__"; "__missing__";
   "__mod__"; "__mul__"; "__ne__"; "__neg__"; "__next__"; "__or__";
   "__pos__"; "__pow__"; "__radd__"; "__rand__"; "__rdivmod__";
   "__reduce__"; "__reduce_ex__"; "__repr__"; "__reversed__";
   "__rfloordiv__"; "__rlshift__"; "__rmatmul__"; "__rmod__"; "__rmul__";
   "__ror__"; "__round__"; "__rpow__"; "__rrshift__"; "__rshift__";
   "__rsub__"; "__rtruediv__"; "__rxor__"; "__set__"; "__setitem__";
   "__setstate__"; "__sizeof__"; "__str__"; "__sub__"; "__subclasses__";
   "__truediv__"; "__trunc__"; "__xor__"].

Definition _non_defaults : list string :=
  ["__get__"; "__set__"; "__delete__"; "__reversed__"; "__missing__";
   "__reduce__"; "__reduce_ex__"; "__getinitargs__"; "__getnewargs__";
   "__getstate__"; "__setstate__"; "__getformat__"; "__repr__"; "__dir__";
   "__subclasses__"; "__format__"; "__getnewargs_ex__"].

(** [orig_magics] of [_mock_set_magics], which is
    [_magics | _async_method_magics]: of [_all_magics], the names that are
    not in [_non_defaults]. *)
Definition orig_magics : list string :=
  filter (λ name, name ∉ _non_defaults) _all_magics.

Section Lib.
Context {U : Type} (rt : Runtime U).

(** [dir(x)]. *)
Definition dir_ (v : Value) : list string :=
  match v with
  | VClass c => cls_dir c
  | _ => py_dir rt v
  end.

(** The parameters of [CallableMixin.__init__], [self] first, that the
    positional arguments fill and that a keyword names as well. *)
Definition conflicts (args : list Value) (kw : gmap string Value)
    : list string :=
  filter (λ p, is_Some (kw !! p))
         ("self" :: take (length args) Mock_params).

(** The call [CallableMixin.__init__(self, *args, **kw)]: the positional
    arguments take the parameters in order.  A keyword for a parameter that
    is filled already is a [TypeError], which names the first such keyword
    of the call; so is an argument with no parameter left. *)
Definition bind_init (args : list Value) (kw : gmap string Value)
    : Result (gmap string Value) :=
  match conflicts args kw with
  | [] =>
      if bool_decide (length Mock_params < length args)%nat then
        Raise (TypeError
                 ("CallableMixin.__init__() takes from 1 to 11 positional arguments but "
                    ++ pretty (S (length args)) ++ " were given"))
      else Ok (list_to_map (zip Mock_params args) ∪ kw)
  | [p] =>
      Raise (TypeError
               ("CallableMixin.__init__() got multiple values for argument "
                  ++ repr p))
  | ps =>
      Raise (TypeError
               ("CallableMixin.__init__() got multiple values for argument "
                  ++ repr (py_first_keyword rt ps)))
  end.

(** The spec that [NonCallableMock.__init__] passes to [_mock_add_spec]:
    [spec_set], when given, is the spec. *)
Definition spec_of (kw : gmap string Value) : Value :=
  if is_None (param kw "spec_set") then param kw "spec"
  else param kw "spec_set".

(** [_mock_add_spec] refuses a mock as the spec. *)
Definition check_spec (spec : Value) : Result unit :=
  match spec with
  | VMock _ _ => Raise (InvalidSpecError spec)
  | _ => Ok tt
  end.

(** [_mock_set_magics], by the names that it leaves on the class of the
    instance at the end of [__init__]: for a class with [MagicMixin], the
    names of [orig_magics], those of the spec only when there is one. *)
Definition _mock_set_magics (kind : MockKind) (methods : option (list string))
    : list string :=
  if is_magic kind then
    match methods with
    | None => orig_magics
    | Some methods => filter (λ name, name ∈ methods) orig_magics
    end
  else [].

(** The mock at the end of [__init__] when no keyword is left for
    [configure_mock].  [spec_set], when given, is the spec and makes it
    strict; [_mock_add_spec] keeps the class of the spec and its listing. *)
Definition Mock_init (cls : MockClass) (kw : gmap string Value) : Mock :=
  let spec := spec_of kw in
  let methods := if is_None spec then None else Some (dir_ spec) in
  {| mock_class := cls;
     _mock_name := param kw "name";
     _spec_class := match spec with
                    | VNone => NoSpec
                    | VClass c => SpecIs c
                    | v => SpecTypeOf v
                    end;
     _spec_set := negb (is_None (param kw "spec_set"));
     _mock_methods := methods;
     _mock_wraps := param kw "wraps";
     _mock_unsafe := default (VBool false) (kw !! "unsafe");
     mock_magics := _mock_set_magics (mc_kind cls) methods;
     mock_dict := [];
     mock_doc := None |}.

(** The keywords that no parameter takes: the [kwargs] of
    [NonCallableMock.__init__], which go to [configure_mock]. *)
Definition leftover (kw : gmap string Value) : gmap string Value :=
  filter (λ kv, kv.1 ∉ Mock_named) kw.

(** A value that is no mock and carries none: [_check_and_set_parent] has
    nothing to do for it. *)
Definition is_plain (v : Value) : bool :=
  match v with
  | VMock _ _ | VFunction _ => false
  | _ => true
  end.

(** The keywords left are the one keyword [_mock_wraps], with a plain
    value. *)
Definition only_wraps (left : gmap string Value) : option Value :=
  match left !! "_mock_wraps" with
  | Some v =>
      if bool_decide (left = {["_mock_wraps" := v]}) && is_plain v
      then Some v else None
  | None => None
  end.

(** The last step of [NonCallableMock.__init__], taken when keywords are
    left: [configure_mock] with them, and the rest of [__init__].
    [configure_mock] calls [setattr(self, name, value)] for each keyword.
    One case is followed here: for [_mock_wraps = value], [__setattr__]
    finds the name in the dictionary of the instance, so that even a strict
    spec lets it through, and the value replaces the one that [__init__] has
    just stored.  Every other case is left to [py_configure]. *)
Definition configure_mock (cls : MockClass) (left : gmap string Value)
    (u : U) (l : loc) (m : Mock) (others : gmap loc Mock)
    : Result Mock * gmap loc Mock :=
  if bool_decide (left = ∅) then (Ok m, others)
  else
    match only_wraps left with
    | Some value => (Ok (set_mock_wraps value m), others)
    | None => py_configure rt cls left u l m others
    end.

(** Calling the class with [args] and [kw]: a new mock object.  [__new__]
    binds the arguments to the signature of [NonCallableMock.__init__],
    unless the class has [AsyncMockMixin]; then [__init__] runs. *)
Definition Mock_new (cls : MockClass) (args : list Value)
    (kw : gmap string Value) : M U loc :=
  log (EvWrapper cls args kw);;
  (if is_async (mc_kind cls) then ret tt
   else lift (bind_partial ("self" :: New_params) (S (length args)) kw));;
  let* bound := lift (bind_init args kw) in
  lift (check_spec (spec_of bound));;
  λ st,
    let l := fresh (dom (mocks st)) in
    match configure_mock cls (leftover kw) (world st) l (Mock_init cls bound)
            (mocks st) with
    | (Ok m, others) =>
        (Ok l, {| world := world st; mocks := <[l := m]> others;
                  futures := futures st; trace := trace st |})
    | (Raise e, others) =>
        (Raise e, {| world := world st; mocks := others;
                     futures := futures st; trace := trace st |})
    end.

(** [NonCallableMock.__setattr__] for a name that is no property of the
    mock: a strict spec refuses a name that is neither in the spec nor in
    the dictionary of the instance. *)
Definition refuses_set (m : Mock) (name : string) : bool :=
  _spec_set m &&
  match _mock_methods m with
  | Some methods =>
      negb (bool_decide (name ∈ methods))
      && negb (bool_decide (name ∈ mock_dict m))
  | None => false
  end.

(** [mock.__doc__ = doc]. *)
Definition Mock_set_doc (l : loc) (doc : option string) : M U unit :=
  λ st,
    match mocks st !! l with
    | Some m =>
        if refuses_set m "__doc__" then
          (Raise (AttributeError ("Mock object has no attribute " ++ repr "__doc__")), st)
        else
          (Ok tt, {| world := world st;
                     mocks := <[l := set_mock_doc doc m]> (mocks st);
                     futures := futures st; trace := trace st |})
    | None => (Ok tt, st)
    end.

End Lib.

(** [_is_magic(name)]: the name is [__x__]. *)
Definition _is_magic (name : string) : bool :=
  (4 <=? String.length name)%nat && String.prefix "__" name &&
  String.eqb (String.substring (String.length name - 2) 2 name) "__".

Definition looks_like_assert (name : string) : bool :=
  existsb (λ p, String.prefix p name)
          ["assert"; "assret"; "asert"; "aseert"; "assrt"].

(** What reading an attribute of a mock comes to.
    - [FoundMagic]: the entry that the library keeps for a magic method on
      the class of the instance, a [MagicProxy] or the child mock it has
      made.  Calling it runs that child mock of the library, an [AsyncMock]
      for the asynchronous names, and no method of the wrapper class.
    - [FoundOwn]: a member that the wrapper class or one of its bases
      defines, or an entry of the dictionary of the instance.
    - [Refused]: the [__getattr__] hook raises.
    - [Child]: the hook goes on to the child mock of that name, a new one if
      there is none, for which it first reads the attribute of that name of
      the wrapped object; this part is not followed. *)
Inductive Lookup :=
| FoundMagic (name : string)
| FoundOwn (name : string)
| Refused (e : Exception)
| Child (name : string).

(** [NonCallableMock.__getattr__], the hook for a name that ordinary lookup
    did not find, up to the lock. *)
Definition Mock___getattr__ (m : Mock) (name : string) : Lookup :=
  if bool_decide (name ∈ ["_mock_methods"; "_mock_unsafe"]) then
    Refused (AttributeError name)
  else
    match _mock_methods m with
    | Some methods =>
        if negb (bool_decide (name ∈ methods)) || bool_decide (name ∈ _all_magics)
        then Refused (AttributeError ("Mock object has no attribute " ++ repr name))
        else Child name
    | None =>
        if _is_magic name then Refused (AttributeError name)
        else if negb (truthy (_mock_unsafe m)) && looks_like_assert name then
          Refused (AttributeError
                     (repr name ++ " is not a valid assertion. Use a spec for the mock if "
                        ++ repr name ++ " is meant to be an attribute."))
        else Child name
    end.

(** [getattr(mock, name)]: ordinary lookup first, then the hook.  The class
    of the instance comes before the wrapper class, so an entry that
    [_mock_set_magics] has set there hides a method of the same name that
    the wrapper class defines. *)
Definition Mock_getattr (m : Mock) (name : string) : Lookup :=
  if bool_decide (name ∈ mock_dict m) then FoundOwn name
  else if bool_decide (name ∈ mock_magics m) then FoundMagic name
  else if bool_decide (name ∈ mc_members (mock_class m)) then FoundOwn name
  else Mock___getattr__ m name.

(** The names ordinary lookup finds on a [MagicMock] apart from the magic
    methods set on the class of the instance. *)
Definition MagicMock_members : list string :=
  ["_NonCallableMock__get_return_value"; "_NonCallableMock__get_side_effect";
   "_NonCallableMock__return_value_doc"; "_NonCallableMock__set_return_value";
   "_NonCallableMock__set_side_effect"; "__call__"; "__class__";
   "__delattr__"; "__dict__"; "__dir__"; "__doc__"; "__eq__"; "__format__";
   "__ge__"; "__getattr__"; "__getattribute__"; "__getstate__"; "__gt__";
   "__hash__"; "__init__"; "__init_subclass__"; "__le__"; "__lt__";
   "__module__"; "__ne__"; "__new__"; "__reduce__"; "__reduce_ex__";
   "__repr__"; "__setattr__"; "__sizeof__"; "__str__"; "__subclasshook__";
   "__weakref__"; "_call_matcher"; "_calls_repr"; "_execute_mock_call";
   "_extract_mock_name"; "_format_mock_call_signature";
   "_format_mock_failure_message"; "_get_call_signature_from_name";
   "_get_child_mock"; "_increment_mock_call"; "_lock"; "_mock_add_spec";
   "_mock_call"; "_mock_call_args"; "_mock_call_args_list";
   "_mock_call_count"; "_mock_called"; "_mock_check_sig"; "_mock_children";
   "_mock_delegate"; "_mock_methods"; "_mock_mock_calls"; "_mock_name";
   "_mock_new_name"; "_mock_new_parent"; "_mock_parent";
   "_mock_return_value"; "_mock_sealed"; "_mock_set_magics";
   "_mock_side_effect"; "_mock_unsafe"; "_mock_wraps"; "_spec_asyncs";
   "_spec_class"; "_spec_set"; "_spec_signature"; "assert_any_call";
   "assert_called"; "assert_called_once"; "assert_called_once_with";
   "assert_called_with"; "assert_has_calls"; "assert_not_called";
   "attach_mock"; "call_args"; "call_args_list"; "call_count"; "called";
   "configure_mock"; "method_calls"; "mock_add_spec"; "mock_calls";
   "reset_mock"; "return_value"; "side_effect"].

Definition MagicMock : MockClass :=
  {| mc_name := "MagicMock"; mc_kind := KMagicMock;
     mc_members := MagicMock_members |}.

(** What an [AsyncMock] has besides. *)
Definition AsyncMock_members : list string :=
  ["__annotations__"; "__code__"; "__defaults__"; "__kwdefaults__";
   "__name__"; "_is_coroutine"; "_mock_await_args"; "_mock_await_args_list";
   "_mock_await_count"; "assert_any_await"; "assert_awaited";
   "assert_awaited_once"; "assert_awaited_once_with"; "assert_awaited_with";
   "assert_has_awaits"; "assert_not_awaited"; "await_args";
   "await_args_list"; "await_count"] ++ MagicMock_members.

Definition AsyncMock : MockClass :=
  {| mc_name := "AsyncMock"; mc_kind := KAsyncMock;
     mc_members := AsyncMock_members |}.

End MockLib.

(* ===================================================================== *)
(** ** [make_spy] and the factory it returns *)
(* ===================================================================== *)

Module Spy.
Import Py MockLib.

(** The object [make_spy] returns.  [__call__] reads [target], [instance]
    and [wrapper] from the enclosing call of [make_spy]; [_instance] is the
    attribute that [__init__] sets and the property reads. *)
Record _SpyFactory := {
  _instance : Value;
  target_of : Value;
  instance_of : Value;
  wrapper_of : MockClass;
  __name__ : string;
  __doc__ : string;
}.

(** The property [instance]. *)
Definition instance (self : _SpyFactory) : Value := _instance self.

(** The documentation text given to the factory.  Its first line starts at
    the margin, so [dedent] only empties the last, blank line. *)
Definition factory_doc (target_name wrapper_name : string) : string :=
  "Wrap the instance of " ++ target_name ++ " with a proxy that records interactions.

    The wrapped instance that was created along with this factory function is used in every call to the
    factory.  The parameters passed to the factory are applied to the wrapper.  The factory can be called repeatedly
    to create different configurations of the spy, but the instance will always be the same.  The instance itself is
    accessible through the `instance` property of the factory.

    The parameters passed to the factory are applied to the wrapper, in this case, " ++ wrapper_name ++ ", as it is
    instantiated.  The wrapper is expected to be a class that is a subclass of Mock.  The valid parameters for the
    factory correspond to the parameters of the wrapper with the exception of `spec`, `spec_set`, and `wraps` which
    will be overridden by the factory if provided.

    Args:
        *args: Positional arguments passed to the wrapper.
        **kwargs: Keyword arguments passed to the wrapper.

    Returns:
        A wrapped instance of the target class.
".

(** [override] and [kw] of [__call__]: the default name first, the caller's
    keywords over it, the three forced entries last. *)
Definition override (target inst : Value) : gmap string Value :=
  <["wraps" := inst]> (<["spec_set" := target]> (<["spec" := target]> ∅)).

Definition merged_kw (target_name : string) (target inst : Value)
    (kwargs : gmap string Value) : gmap string Value :=
  dict_update
    (dict_update (<["name" := VStr (target_name ++ "()")]> ∅) kwargs)
    (override target inst).

Section Code.
Context {U : Type} (rt : Runtime U).

(** The state after a call of the ambient program that left its own state
    as [w]. *)
Definition called (st : State U) (f : Value) (args : list Value)
    (kwargs : gmap string Value) (w : U) : State U :=
  {| world := w; mocks := mocks st; futures := futures st;
     trace := trace st ++ [EvCall f args kwargs] |}.

(** The state once a call of the wrapper class is logged. *)
Definition logged (st : State U) (w : MockClass) (args : list Value)
    (kw : gmap string Value) : State U :=
  {| world := world st; mocks := mocks st; futures := futures st;
     trace := trace st ++ [EvWrapper w args kw] |}.

(** Calling an object of the ambient program. *)
Definition call (f : Value) (args : list Value) (kwargs : gmap string Value)
    : M U Value :=
  λ st,
    let '(r, w) := py_call rt f args kwargs (world st) in
    (r, called st f args kwargs w).

(** [x.__doc__] of an object of the ambient program. *)
Definition getattr_doc (v : Value) : M U (option string) :=
  λ st, (Ok (py_doc rt v (world st)), st).

Definition __call__ (self : _SpyFactory) (args : list Value)
    (kwargs : gmap string Value) : M U Value :=
  let target := target_of self in
  let inst := instance_of self in
  let wrapper := wrapper_of self in
  let* target_name := lift (getattr_name target) in
  let kw := merged_kw target_name target inst kwargs in
  let* spy := Mock_new rt wrapper args kw in
  let* doc := getattr_doc inst in
  Mock_set_doc spy doc;;
  ret (VMock (mc_name wrapper) spy).

Definition make_spy (target : Value) (target_args : list Value)
    (wrapper : MockClass) (target_kwargs : gmap string Value)
    : M U _SpyFactory :=
  if negb (bool_decide (type_of target ∈ [type_; ABCMeta])) then
    if bool_decide (type_of target = FunctionType) then
      raise (TypeError
               "The target must be a class like object - received a FunctionType.")
    else
      let* class_name := getattr_class_name target in
      raise (TypeError ("Received an instance of " ++ class_name
                          ++ "(), expected target=" ++ class_name ++ "."))
  else
    let* inst := call target target_args target_kwargs in
    let* target_name := lift (getattr_name target) in
    ret {| _instance := inst;
           target_of := target;
           instance_of := inst;
           wrapper_of := wrapper;
           __name__ := target_name ++ "SpyFactory";
           __doc__ := factory_doc target_name (mc_name wrapper) |}.


(** [getattr(spy, name)] on a mock of the state. *)
Definition getattr_spy (st : State U) (spy : Value) (name : string)
    : option Lookup :=
  match spy with
  | VMock _ l => (λ m, Mock_getattr m name) <$> mocks st !! l
  | _ => None
  end.

End Code.

End Spy.

(* ===================================================================== *)
(** ** [AsyncContextManagerMock] *)
(* ===================================================================== *)

Module Async.
Import Py MockLib.

(** The class: a [MagicMock] that defines [__aenter__] and [__aexit__]. *)
Definition AsyncContextManagerMock : MockClass :=
  {| mc_name := "AsyncContextManagerMock"; mc_kind := KMagicMock;
     mc_members := "__aenter__" :: "__aexit__" :: mc_members MagicMock |}.

Section Code.
Context {U : Type}.

(** [Future()]: a new future, pending. *)
Definition Future_new : M U loc :=
  λ st,
    let l := fresh (dom (futures st)) in
    (Ok l, {| world := world st; mocks := mocks st;
              futures := <[l := Pending]> (futures st); trace := trace st |}).

(** [fut.set_result(value)]: allowed once. *)
Definition set_result (l : loc) (value : Value) : M U unit :=
  λ st,
    match futures st !! l with
    | Some Pending =>
        (Ok tt, {| world := world st; mocks := mocks st;
                   futures := <[l := Finished value]> (futures st);
                   trace := trace st |})
    | _ => (Raise (InvalidStateError "invalid state"), st)
    end.

(** A coroutine function is modelled by its body: awaiting the coroutine
    runs the body and yields what it returns.  Neither body awaits. *)
Definition __aenter__ (self : Value) : M U Value :=
  ret self.

Definition __aexit__ (self exc_type exc tb : Value) : M U Value :=
  let* result := Future_new in
  set_result result VNone;;
  ret (VFuture result).

(** [async with]: the exception in flight is swallowed when the value that
    awaiting [__aexit__] yields is true. *)
Definition suppresses (exit_value : Value) : bool := truthy exit_value.

End Code.

End Async.

(* ===================================================================== *)
(** ** A small ambient program, for the examples *)
(* ===================================================================== *)

Module Demo.
Import Py MockLib Spy Async.

(** [dir(object)]. *)
Definition object_dir : list string :=
  ["__class__"; "__delattr__"; "__dir__"; "__doc__"; "__eq__"; "__format__";
   "__ge__"; "__getattribute__"; "__getstate__"; "__gt__"; "__hash__";
   "__init__"; "__init_subclass__"; "__le__"; "__lt__"; "__ne__"; "__new__";
   "__reduce__"; "__reduce_ex__"; "__repr__"; "__setattr__"; "__sizeof__";
   "__str__"; "__subclasshook__"].

(** [dir] of a class that defines [members] and inherits from [object]. *)
Definition plain_dir (members : list string) : list string :=
  members ++ ["__dict__"; "__module__"; "__weakref__"] ++ object_dir.

(** [class Greeter: def greet(self): ...] *)
Definition Greeter : Class :=
  {| cls_name := "Greeter"; cls_type := type_;
     cls_dir := plain_dir ["greet"]; cls_doc := Some "Says hello." |}.

(** [class Broken: def __init__(self): raise ValueError(...)] *)
Definition Broken : Class :=
  {| cls_name := "Broken"; cls_type := type_;
     cls_dir := plain_dir []; cls_doc := None |}.

(** [class Model(metaclass=ModelMeta): ...] with [class ModelMeta(type)]. *)
Definition Model : Class :=
  {| cls_name := "Model"; cls_type := OtherType "ModelMeta";
     cls_dir := plain_dir ["save"]; cls_doc := None |}.

(** [class Session] with the coroutine methods [__aenter__] and
    [__aexit__]. *)
Definition Session : Class :=
  {| cls_name := "Session"; cls_type := type_;
     cls_dir := plain_dir ["__aenter__"; "__aexit__"]; cls_doc := None |}.

(** The state of the ambient program is the number of objects it has made;
    a new object gets that number.  [Broken] cannot be built.  No example
    reaches [py_configure] or has more than one keyword that names a filled
    parameter. *)
Definition demo : Runtime nat :=
  {| py_call := λ f _ _ n,
       match f with
       | VClass c =>
           if String.eqb (cls_name c) "Broken"
           then (Raise (Raised "ValueError" "cannot be built"), n)
           else (Ok (VObj (cls_name c) n), S n)
       | _ => (Raise (TypeError "object is not callable"), n)
       end;
     py_doc := λ v _,
       match v with
       | VObj cls _ => if String.eqb cls "Greeter" then Some "Says hello." else None
       | _ => None
       end;
     py_dir := λ _, [];
     py_configure := λ _ _ _ _ m others, (Ok m, others);
     py_first_keyword := λ ps, default "self" (head ps) |}.

Definition st0 : State nat :=
  {| world := 0; mocks := ∅; futures := ∅; trace := [] |}.

(** [make_spy(Greeter)] from [st0] gives this factory and this state. *)
Definition greeter_factory (wrapper : MockClass) : _SpyFactory :=
  {| _instance := VObj "Greeter" 0;
     target_of := VClass Greeter;
     instance_of := VObj "Greeter" 0;
     wrapper_of := wrapper;
     __name__ := "GreeterSpyFactory";
     __doc__ := factory_doc "Greeter" (mc_name wrapper) |}.

Definition st1 : State nat :=
  {| world := 1; mocks := ∅; futures := ∅;
     trace := [EvCall (VClass Greeter) [] ∅] |}.

(** [make_spy(Session, AsyncContextManagerMock)] from [st0]. *)
Definition session_factory : _SpyFactory :=
  {| _instance := VObj "Session" 0;
     target_of := VClass Session;
     instance_of := VObj "Session" 0;
     wrapper_of := AsyncContextManagerMock;
     __name__ := "SessionSpyFactory";
     __doc__ := factory_doc "Session" "AsyncContextManagerMock" |}.

Definition st1_session : State nat :=
  {| world := 1; mocks := ∅; futures := ∅;
     trace := [EvCall (VClass Session) [] ∅] |}.


(** Later the ambient program has made another [Greeter] itself, and a
    caller names it for the private attribute [_mock_wraps]. *)
Definition other : Value := VObj "Greeter" 1.

Definition st2 : State nat :=
  {| world := 2; mocks := ∅; futures := ∅;
     trace := [EvCall (VClass Greeter) [] ∅] |}.


(** The dictionaries of the specification's examples. *)
Definition a1b2 : gmap string Subset.ValueTypes :=
  <["b" := Subset.VInt 2]> (<["a" := Subset.VInt 1]> ∅).
Definition a1 : gmap string Subset.ValueTypes := <["a" := Subset.VInt 1]> ∅.
Definition a2 : gmap string Subset.ValueTypes := <["a" := Subset.VInt 2]> ∅.

(** Three pieces of a list of pairs in which the key [k] occurs twice. *)
Definition head_items : list (Subset.PairTypes Subset.ValueTypes) := [].
Definition mid_items : list (Subset.PairTypes Subset.ValueTypes) :=
  [("y", Subset.VInt 5)].
Definition tail_items : list (Subset.PairTypes Subset.ValueTypes) :=
  [("z", Subset.VInt 0)].

End Demo.

(* ===================================================================== *)
(** ** Properties of the subset checker *)
(* ===================================================================== *)

Section SubsetFacts.
Import Subset.
Context {V : Type} (eqv : V → V → bool).

Lemma all_contained_spec (a b : gmap string V) :
  forallb (items_contains eqv b) (map_to_list a) = true
  ↔ every_pair_present eqv b a.
Proof.
  rewrite forallb_forall. unfold every_pair_present, items_contains. split.
  - intros H k v Hkv.
    specialize (H (k, v)). simpl in H.
    destruct (b !! k) as [v'|] eqn:Hb.
    + exists v'. split; [done|]. apply H.
      apply list_elem_of_In, elem_of_map_to_list. done.
    + exfalso. (assert (false = true) as Hf); [|discriminate Hf].
      apply H. apply list_elem_of_In, elem_of_map_to_list. done.
  - intros H [k v] Hin. simpl.
    apply list_elem_of_In, elem_of_map_to_list in Hin.
    destruct (H k v Hin) as (v' & -> & Heq). done.
Qed.

(** The length test never changes the answer: keys are unique, so a mapping
    all of whose items are found in [b] has at most as many keys as [b]. *)
Lemma present_size (a b : gmap string V) :
  every_pair_present eqv b a → (size a ≤ size b)%nat.
Proof.
  intros H. rewrite <- !size_dom. apply subseteq_size.
  intros k Hk. apply elem_of_dom in Hk as [v Hv].
  destruct (H k v Hv) as (v' & Hb & _). apply elem_of_dom. eauto.
Qed.

Lemma items_le_spec (a b : gmap string V) :
  items_le eqv a b = true ↔ every_pair_present eqv b a.
Proof.
  unfold items_le. rewrite andb_true_iff, all_contained_spec. split.
  - intros [_ H]. exact H.
  - intros H. split; [|exact H].
    apply Nat.leb_le. by apply present_size.
Qed.

(** Storing pairs whose keys differ from [k] leaves the binding of [k]. *)
Lemma fold_insert_other (items : list (PairTypes V)) (d : gmap string V) k :
  k ∉ items.*1 →
  fold_left (λ d kv, <[kv.1 := kv.2]> d) items d !! k = d !! k.
Proof.
  revert d. induction items as [|[k' v'] items IH]; intros d Hk; simpl.
  - done.
  - rewrite fmap_cons, not_elem_of_cons in Hk. destruct Hk as [Hne Hk].
    rewrite IH by done. simpl in *. by rewrite lookup_insert_ne.
Qed.

Lemma dict_of_pairs_last (before after : list (PairTypes V)) k v :
  k ∉ after.*1 →
  dict_of_pairs (before ++ (k, v) :: after) !! k = Some v.
Proof.
  intros Hk. unfold dict_of_pairs.
  rewrite fold_left_app. simpl.
  rewrite fold_insert_other by done.
  apply lookup_insert_eq.
Qed.

End SubsetFacts.

(** C4.  [is_subset_of superset subset] is true exactly when every
    (key, value) pair of the mapping made from [subset] is present, with an
    equal value, in the mapping made from [superset].  It is a function of
    its two arguments alone.  On the examples: [{a:1, b:2}] contains [{a:1}],
    [{a:1}] does not contain [{a:2}], and an empty subset, in any of its
    forms, is contained in every superset. *)
Theorem is_subset_of_spec :
  (∀ (V : Type) (eqv : V → V → bool)
     (superset subset : Subset.CollectionTypes V),
     Subset.is_subset_of eqv superset subset = true ↔
     ∀ k v, Subset.dict_ subset !! k = Some v →
            ∃ v', Subset.dict_ superset !! k = Some v' ∧ eqv v' v = true)
  ∧ Subset.is_subset_of Subset.value_eq
      (Subset.CDict Demo.a1b2) (Subset.CDict Demo.a1) = true
  ∧ Subset.is_subset_of Subset.value_eq
      (Subset.CDict Demo.a1) (Subset.CDict Demo.a2) = false
  ∧ (∀ (V : Type) (eqv : V → V → bool) (superset : Subset.CollectionTypes V),
       Subset.is_subset_of eqv superset (Subset.CDict ∅) = true
       ∧ Subset.is_subset_of eqv superset (Subset.CList []) = true
       ∧ Subset.is_subset_of eqv superset (Subset.CTuple []) = true
       ∧ Subset.is_subset_of eqv superset (Subset.CSet []) = true).
Proof.
  split; [|split; [|split]].
  - intros V eqv superset subset. unfold Subset.is_subset_of.
    apply items_le_spec.
  - vm_compute. reflexivity.
  - vm_compute. reflexivity.
  - intros V eqv superset.
    assert (Hempty : Subset.items_le eqv ∅ (Subset.dict_ superset) = true).
    { apply items_le_spec. intros k v Hk. by rewrite lookup_empty in Hk. }
    repeat split; exact Hempty.
Qed.

(** C10.  In the pair-sequence form (a list or a tuple of pairs) a key that
    occurs twice is bound to the value of its later occurrence: when
    [(k, v1)] comes before [(k, v2)] and no pair with key [k] follows, the
    mapping compared by [is_subset_of] binds [k] to [v2]. *)
Theorem duplicate_key_later_wins :
  ∀ (V : Type) (first between rest : list (Subset.PairTypes V))
    (k : string) (v1 v2 : V),
    k ∉ rest.*1 →
    let items := (first ++ (k, v1) :: between ++ (k, v2) :: rest)%list in
    Subset.dict_ (Subset.CList items) !! k = Some v2
    ∧ Subset.dict_ (Subset.CTuple items) !! k = Some v2.
Proof.
  intros V first between rest k v1 v2 Hk items.
  assert (H : Subset.dict_of_pairs items !! k = Some v2).
  { unfold items.
    replace (first ++ (k, v1) :: between ++ (k, v2) :: rest)%list
      with ((first ++ (k, v1) :: between) ++ (k, v2) :: rest)%list
      by (rewrite <- app_assoc; reflexivity).
    by apply dict_of_pairs_last. }
  split; exact H.
Qed.

Lemma duplicate_key_later_wins_witness :
  ("k" ∉ Demo.tail_items.*1)
  ∧ Subset.dict_
      (Subset.CList [("k", Subset.VInt 1); ("y", Subset.VInt 5);
                     ("k", Subset.VInt 2); ("z", Subset.VInt 0)]) !! "k"
    = Some (Subset.VInt 2).
Proof.
  assert (Hk : "k" ∉ Demo.tail_items.*1).
  { apply not_elem_of_cons. split; [discriminate | apply not_elem_of_nil]. }
  split; [exact Hk|].
  exact (proj1 (duplicate_key_later_wins Subset.ValueTypes Demo.head_items
                  Demo.mid_items Demo.tail_items "k"
                  (Subset.VInt 1) (Subset.VInt 2) Hk)).
Defined.

(* ===================================================================== *)
(** ** Properties of [make_spy] and of the factory *)
(* ===================================================================== *)

Section MergeFacts.
Import Py MockLib Spy.

Lemma override_spec target inst :
  override target inst !! "spec" = Some target.
Proof. unfold override. by simplify_map_eq. Qed.

Lemma override_spec_set target inst :
  override target inst !! "spec_set" = Some target.
Proof. unfold override. by simplify_map_eq. Qed.

Lemma override_wraps target inst :
  override target inst !! "wraps" = Some inst.
Proof. unfold override. by simplify_map_eq. Qed.


Lemma merged_kw_forced name target inst kwargs k v :
  override target inst !! k = Some v →
  merged_kw name target inst kwargs !! k = Some v.
Proof. intros H. unfold merged_kw, dict_update. by apply lookup_union_Some_l. Qed.

Lemma merged_kw_name name target inst kwargs :
  merged_kw name target inst kwargs !! "name"
  = Some (default (VStr (name ++ "()")) (kwargs !! "name")).
Proof.
  unfold merged_kw, dict_update.
  rewrite lookup_union_r
    by (unfold override; by rewrite !lookup_insert_ne, lookup_empty).
  rewrite lookup_union. rewrite lookup_insert_eq.
  by destruct (kwargs !! "name").
Qed.

Lemma merged_kw_other name target inst kwargs k :
  k ∉ ["spec"; "spec_set"; "wraps"; "name"] →
  merged_kw name target inst kwargs !! k = kwargs !! k.
Proof.
  intros Hk. unfold merged_kw, dict_update.
  rewrite !not_elem_of_cons in Hk. destruct Hk as (H1 & H2 & H3 & H4 & _).
  rewrite lookup_union_r
    by (unfold override; by rewrite !lookup_insert_ne, lookup_empty).
  rewrite lookup_union, lookup_insert_ne, lookup_empty by done.
  by destruct (kwargs !! k).
Qed.


End MergeFacts.
Section SpyFacts.
Import Py MockLib Spy.
Context {U : Type} (rt : Runtime U).

(** Only a class object has [type] or [ABCMeta] as its type. *)
Lemma accepted_is_class target :
  type_of target ∈ [type_; ABCMeta] → ∃ c, target = VClass c.
Proof.
  destruct target; simpl; intros H; eauto;
    rewrite !elem_of_cons in H; destruct H as [H|[H|H]];
    try discriminate; by apply elem_of_nil in H.
Qed.

Lemma make_spy_rejects target args w kwargs st :
  type_of target ∉ [type_; ABCMeta] →
  make_spy rt target args w kwargs st
  = (Raise (TypeError
       (if bool_decide (type_of target = FunctionType)
        then "The target must be a class like object - received a FunctionType."
        else "Received an instance of " ++ class_name_of st target
             ++ "(), expected target=" ++ class_name_of st target ++ ".")),
     st).
Proof.
  intros H. unfold make_spy. rewrite bool_decide_eq_false_2 by done. simpl.
  by case_bool_decide.
Qed.

Lemma make_spy_accepts c args w kwargs st :
  cls_type c ∈ [type_; ABCMeta] →
  make_spy rt (VClass c) args w kwargs st
  = match py_call rt (VClass c) args kwargs (world st) with
    | (Ok inst, u) =>
        (Ok {| _instance := inst; target_of := VClass c; instance_of := inst;
               wrapper_of := w; __name__ := cls_name c ++ "SpyFactory";
               __doc__ := factory_doc (cls_name c) (mc_name w) |},
         called st (VClass c) args kwargs u)
    | (Raise e, u) => (Raise e, called st (VClass c) args kwargs u)
    end.
Proof.
  intros H. unfold make_spy. simpl type_of.
  rewrite bool_decide_eq_true_2 by done. simpl.
  unfold bind, call.
  destruct (py_call rt (VClass c) args kwargs (world st)) as [[inst|e] u];
    reflexivity.
Qed.

(** What a factory made by [make_spy] is made of. *)
Lemma make_spy_ok target args w kwargs st f st' :
  make_spy rt target args w kwargs st = (Ok f, st') →
  ∃ c u,
    target = VClass c ∧ cls_type c ∈ [type_; ABCMeta]
    ∧ py_call rt target args kwargs (world st) = (Ok (_instance f), u)
    ∧ st' = called st target args kwargs u
    ∧ target_of f = target ∧ instance_of f = _instance f ∧ wrapper_of f = w.
Proof.
  intros Hrun.
  destruct (decide (type_of target ∈ [type_; ABCMeta])) as [Hin|Hout].
  - destruct (accepted_is_class _ Hin) as [c ->]. simpl in Hin.
    rewrite make_spy_accepts in Hrun by done.
    destruct (py_call rt (VClass c) args kwargs (world st)) as [[inst|e] u];
      [|discriminate].
    injection Hrun as <- <-. exists c, u. simpl. done.
  - rewrite make_spy_rejects in Hrun by done. discriminate.
Qed.

(** Keywords that are all parameters leave nothing for [configure_mock]. *)
Lemma leftover_empty (kw : gmap string Value) :
  (∀ k, is_Some (kw !! k) → k ∈ Mock_named) → leftover kw = ∅.
Proof.
  intros Hnamed. unfold leftover. apply map_empty_filter_2.
  intros k v Hk Hout. apply Hout. simpl. apply Hnamed. by exists v.
Qed.

Lemma merged_kw_named name target inst kwargs :
  (∀ k, is_Some (kwargs !! k) → k ∈ Mock_named) →
  ∀ k, is_Some (merged_kw name target inst kwargs !! k) → k ∈ Mock_named.
Proof.
  intros Hnamed k Hk.
  destruct (decide (k ∈ ["spec"; "spec_set"; "wraps"; "name"])) as [Hin|Hout].
  - apply (bool_decide_unpack _).
    rewrite !elem_of_cons in Hin.
    destruct Hin as [->|[->|[->|[->|Hin]]]];
      [reflexivity..|by apply elem_of_nil in Hin].
  - rewrite merged_kw_other in Hk by done. by apply Hnamed.
Qed.

(** Whatever its outcome, a call of the wrapper class logs itself and
    leaves the ambient program and the futures alone; a mock it returns is
    new. *)
Lemma Mock_new_frame cls args kw st r st' :
  Mock_new rt cls args kw st = (r, st') →
  world st' = world st
  ∧ futures st' = futures st
  ∧ trace st' = (trace st ++ [EvWrapper cls args kw])%list
  ∧ ∀ l, r = Ok l → mocks st !! l = None ∧ is_Some (mocks st' !! l).
Proof.
  unfold Mock_new, bind, log, lift, ret. intros Hrun.
  assert (Hrest :
    ∀ st1, world st1 = world st → futures st1 = futures st →
           mocks st1 = mocks st →
           trace st1 = (trace st ++ [EvWrapper cls args kw])%list →
      match bind_init rt args kw with
      | Ok bound =>
          match check_spec (spec_of bound) with
          | Ok _ =>
              match configure_mock rt cls (leftover kw) (world st1)
                      (fresh (dom (mocks st1))) (Mock_init rt cls bound)
                      (mocks st1) with
              | (Ok m, others) =>
                  (Ok (fresh (dom (mocks st1))),
                   {| world := world st1;
                      mocks := <[fresh (dom (mocks st1)) := m]> others;
                      futures := futures st1; trace := trace st1 |})
              | (Raise e, others) =>
                  (Raise e, {| world := world st1; mocks := others;
                               futures := futures st1; trace := trace st1 |})
              end
          | Raise e => (Raise e, st1)
          end
      | Raise e => (Raise e, st1)
      end = (r, st') →
      world st' = world st
      ∧ futures st' = futures st
      ∧ trace st' = (trace st ++ [EvWrapper cls args kw])%list
      ∧ ∀ l, r = Ok l → mocks st !! l = None ∧ is_Some (mocks st' !! l)).
  { intros st1 Hw Hf Hm Htr Hgo.
    destruct (bind_init rt args kw) as [bound|e];
      [|injection Hgo as <- <-; by repeat split].
    destruct (check_spec (spec_of bound)) as [[]|e];
      [|injection Hgo as <- <-; by repeat split].
    destruct (configure_mock _ _ _ _ _ _ _) as [[m|e] others];
      injection Hgo as <- <-; cbn [world mocks futures trace];
      (split; [done|]); (split; [done|]); (split; [done|]);
      intros l' Hl'; [|discriminate].
    injection Hl' as <-. rewrite Hm. split.
    - apply not_elem_of_dom, is_fresh.
    - rewrite lookup_insert_eq. by eexists. }
  destruct (is_async (mc_kind cls)).
  - by apply Hrest in Hrun.
  - destruct (bind_partial _ _ _) as [[]|e].
    + by apply Hrest in Hrun.
    + injection Hrun as <- <-. by repeat split.
Qed.

(** A positional argument, when [spec] is passed by keyword: the call is
    refused when the arguments are bound, before any mock is made. *)
Lemma Mock_new_positional cls a args kw st :
  is_Some (kw !! "spec") →
  ∃ msg,
    Mock_new rt cls (a :: args) kw st
    = (Raise (TypeError msg), logged st cls (a :: args) kw)
    ∧ (is_async (mc_kind cls) = false → kw !! "self" = None →
       msg = "multiple values for argument 'spec'")
    ∧ (is_async (mc_kind cls) = true → args = [] → kw !! "self" = None →
       msg = "CallableMixin.__init__() got multiple values for argument 'spec'").
Proof.
  intros Hspec. unfold Mock_new, bind, log, lift, ret. fold (logged st cls (a :: args) kw).
  destruct (is_async (mc_kind cls)) eqn:Hkind.
  - assert (Hin : "spec" ∈ conflicts (a :: args) kw).
    { unfold conflicts. apply list_elem_of_filter. split; [done|].
      cbn [length take Mock_params]. rewrite !elem_of_cons. auto. }
    unfold bind_init.
    destruct (conflicts (a :: args) kw) as [|p [|q ps]] eqn:Hc.
    + by apply elem_of_nil in Hin.
    + eexists. split; [reflexivity|]. split; [discriminate|].
      intros _ -> Hself. apply list_elem_of_singleton in Hin as <-. reflexivity.
    + eexists. split; [reflexivity|]. split; [discriminate|].
      intros _ -> Hself. exfalso.
      unfold conflicts in Hc. cbn [length take Mock_params] in Hc.
      rewrite filter_cons in Hc.
      destruct (decide (is_Some (kw !! "self"))) as [[? Hs]|_];
        [congruence|].
      rewrite filter_cons in Hc. destruct (decide (is_Some (kw !! "spec")));
        [|done]. rewrite filter_nil in Hc. discriminate.
  - cbn [bind_partial New_params].
    destruct (bool_decide (is_Some (kw !! "self"))) eqn:Hself.
    + eexists. split; [reflexivity|]. split; [|discriminate].
      intros _ Hnone. apply bool_decide_eq_true_1 in Hself.
      rewrite Hnone in Hself. by destruct Hself.
    + rewrite (bool_decide_eq_true_2 _ Hspec).
      eexists. split; [reflexivity|]. split; [done|discriminate].
Qed.

(** With keywords that are all parameters and a spec that is no mock, the
    call makes the mock of [Mock_init] and touches no other. *)
Lemma Mock_new_named cls kw st :
  (∀ k, is_Some (kw !! k) → k ∈ Mock_named) →
  check_spec (spec_of kw) = Ok tt →
  Mock_new rt cls [] kw st
  = (Ok (fresh (dom (mocks st))),
     {| world := world st;
        mocks := <[fresh (dom (mocks st)) := Mock_init rt cls kw]> (mocks st);
        futures := futures st;
        trace := trace st ++ [EvWrapper cls [] kw] |}).
Proof.
  intros Hnamed Hspec.
  assert (Hself : kw !! "self" = None).
  { destruct (kw !! "self") as [v|] eqn:Hv; [|done].
    assert (Hin : "self" ∈ Mock_named) by (apply Hnamed; by exists v).
    assert (Hnot : bool_decide ("self" ∈ Mock_named) = false) by reflexivity.
    by apply bool_decide_eq_false_1 in Hnot. }
  assert (Hbind : bind_init rt [] kw = Ok kw).
  { unfold bind_init, conflicts. cbn [length take].
    rewrite filter_cons_False by (rewrite Hself; by intros [? ?]).
    rewrite bool_decide_eq_false_2 by (simpl; lia).
    rewrite take_0. cbn [filter list_filter].
    change (list_to_map (zip Mock_params []) : gmap string Value)
      with (∅ : gmap string Value).
    by rewrite (left_id_L ∅ (∪)). }
  unfold Mock_new, bind, log, lift, ret.
  assert (Hpartial : bind_partial ("self" :: New_params)
                       (S (length ([] : list Value))) kw = Ok tt).
  { cbn [bind_partial length]. rewrite Hself.
    rewrite bool_decide_eq_false_2; [done|]. by intros [? ?]. }
  destruct (is_async (mc_kind cls)); [|rewrite Hpartial];
    rewrite Hbind, Hspec; cbn [world mocks futures trace];
    unfold configure_mock; rewrite (leftover_empty kw Hnamed);
    by rewrite bool_decide_eq_true_2.
Qed.

Lemma calls_made_call (tr : list Event) f args kwargs :
  calls_made (tr ++ [EvCall f args kwargs]) = S (calls_made tr).
Proof.
  unfold calls_made. rewrite filter_app, length_app. simpl. lia.
Qed.

Lemma calls_made_wrapper (tr : list Event) w args kw :
  calls_made (tr ++ [EvWrapper w args kw]) = calls_made tr.
Proof.
  unfold calls_made. rewrite filter_app, length_app. simpl. lia.
Qed.

(** One call of the factory, in terms of the call of the wrapper class. *)
Lemma factory_call_run self c args kwargs st :
  target_of self = VClass c →
  let kw := merged_kw (cls_name c) (VClass c) (instance_of self) kwargs in
  __call__ rt self args kwargs st
  = match Mock_new rt (wrapper_of self) args kw st with
    | (Ok l, st1) =>
        match mocks st1 !! l with
        | Some m =>
            if refuses_set m "__doc__" then
              (Raise (AttributeError
                        ("Mock object has no attribute " ++ repr "__doc__")),
               st1)
            else
              (Ok (VMock (mc_name (wrapper_of self)) l),
               {| world := world st1;
                  mocks := <[l := set_mock_doc
                                    (py_doc rt (instance_of self) (world st1))
                                    m]> (mocks st1);
                  futures := futures st1; trace := trace st1 |})
        | None => (Ok (VMock (mc_name (wrapper_of self)) l), st1)
        end
    | (Raise e, st1) => (Raise e, st1)
    end.
Proof.
  intros Ht kw. unfold __call__. rewrite Ht.
  cbn [getattr_name]. unfold bind, lift. fold kw.
  destruct (Mock_new rt (wrapper_of self) args kw st) as [[l|e] st1];
    [|reflexivity].
  unfold getattr_doc, Mock_set_doc, ret.
  destruct (mocks st1 !! l) as [m|]; [|reflexivity].
  by destruct (refuses_set m "__doc__").
Qed.

(** What one call of the factory leaves behind, whatever the keywords and
    whatever its outcome: the ambient program and the futures are as they
    were, and one call of the wrapper class is logged.  When it returns, the
    result is a mock that was not there before, with the documentation of
    the instance. *)
Lemma factory_call_facts self c args kwargs st r st' :
  target_of self = VClass c →
  __call__ rt self args kwargs st = (r, st') →
  let kw := merged_kw (cls_name c) (VClass c) (instance_of self) kwargs in
  world st' = world st
  ∧ futures st' = futures st
  ∧ trace st' = (trace st ++ [EvWrapper (wrapper_of self) args kw])%list
  ∧ (∀ spy, r = Ok spy →
       ∃ l m, spy = VMock (mc_name (wrapper_of self)) l
              ∧ args = []
              ∧ mocks st !! l = None
              ∧ mocks st' !! l = Some m
              ∧ mock_doc m = py_doc rt (instance_of self) (world st)).
Proof.
  intros Ht Hrun kw.
  rewrite (factory_call_run self c args kwargs st Ht) in Hrun. fold kw in Hrun.
  destruct (Mock_new rt (wrapper_of self) args kw st) as [r1 st1] eqn:Hnew.
  destruct (Mock_new_frame _ _ _ _ _ _ Hnew) as (Hw & Hf & Htr & Hfresh).
  assert (Hargs : ∀ l, r1 = Ok l → args = []).
  { intros l ->. destruct args as [|a args]; [done|].
    destruct (Mock_new_positional (wrapper_of self) a args kw st) as (msg & Hno & _).
    { eexists. apply merged_kw_forced, override_spec. }
    rewrite Hno in Hnew. discriminate. }
  destruct r1 as [l|e]; [|injection Hrun as <- <-; by repeat split].
  destruct (Hfresh l eq_refl) as [Hnone [m Hm]]. rewrite Hm in Hrun.
  destruct (refuses_set m "__doc__").
  - injection Hrun as <- <-. by repeat split.
  - injection Hrun as <- <-. cbn [world futures trace mocks].
    do 3 (split; [done|]). intros spy [= <-].
    eexists l, _. split; [done|]. split; [by eapply Hargs|].
    split; [done|]. split; [apply lookup_insert_eq|].
    cbn [set_mock_doc mock_doc]. by rewrite Hw.
Qed.

(** A magic method set on the class of a mock with a spec is in the spec. *)
Lemma set_magics_in_spec kind methods name :
  name ∈ _mock_set_magics kind (Some methods) → name ∈ methods.
Proof.
  unfold _mock_set_magics. destruct (is_magic kind); intros Hin.
  - by apply list_elem_of_filter in Hin as [? _].
  - by apply elem_of_nil in Hin.
Qed.

(** The mock made from the merged keywords. *)
Lemma spy_mock_fields doc w name c inst kwargs :
  let m := set_mock_doc doc
             (Mock_init rt w (merged_kw name (VClass c) inst kwargs)) in
  mock_class m = w
  ∧ _spec_class m = SpecIs c
  ∧ _spec_set m = true
  ∧ _mock_methods m = Some (cls_dir c)
  ∧ _mock_wraps m = inst
  ∧ _mock_name m = default (VStr (name ++ "()")) (kwargs !! "name")
  ∧ mock_magics m = _mock_set_magics (mc_kind w) (Some (cls_dir c))
  ∧ ∀ n, n ∈ mock_dict m → n = "__doc__".
Proof.
  cbn [set_mock_doc Mock_init mock_class _mock_wraps _spec_class _spec_set
       _mock_methods _mock_name mock_magics mock_dict].
  unfold spec_of, param.
  rewrite (merged_kw_forced _ _ _ _ _ _ (override_wraps _ _)).
  rewrite (merged_kw_forced _ _ _ _ _ _ (override_spec_set _ _)).
  rewrite merged_kw_name. cbn [default is_None negb dir_].
  repeat split. intros n Hn.
  rewrite bool_decide_eq_false_2 in Hn by apply not_elem_of_nil.
  by apply list_elem_of_singleton in Hn.
Qed.

(** With keywords that are all parameters of the constructor, the mock is
    the one that [Mock_init] makes of the merged keywords, and the mocks
    made before are as they were. *)
Lemma factory_call_named self c args kwargs st r st' :
  target_of self = VClass c →
  (∀ k, is_Some (kwargs !! k) → k ∈ Mock_named) →
  __call__ rt self args kwargs st = (r, st') →
  let kw := merged_kw (cls_name c) (VClass c) (instance_of self) kwargs in
  (∀ l m, mocks st !! l = Some m → mocks st' !! l = Some m)
  ∧ (∀ spy, r = Ok spy →
       ∃ l, spy = VMock (mc_name (wrapper_of self)) l
            ∧ mocks st' !! l
              = Some (set_mock_doc (py_doc rt (instance_of self) (world st))
                        (Mock_init rt (wrapper_of self) kw))
            ∧ "__doc__" ∈ cls_dir c).
Proof.
  intros Ht Hnamed Hrun kw.
  rewrite (factory_call_run self c args kwargs st Ht) in Hrun. fold kw in Hrun.
  destruct args as [|a args].
  - rewrite Mock_new_named in Hrun.
    + cbn [mocks world futures trace] in Hrun.
      rewrite lookup_insert_eq in Hrun.
      assert (Hkeep : ∀ m' l m, mocks st !! l = Some m →
                <[fresh (dom (mocks st)) := m']> (mocks st) !! l = Some m).
      { intros m' l m Hl. rewrite lookup_insert_ne; [done|].
        intros <-.
        pose proof (is_fresh (dom (mocks st))) as Hfresh.
        apply not_elem_of_dom in Hfresh. congruence. }
      destruct (refuses_set _ _) eqn:Hdoc; injection Hrun as <- <-;
        cbn [mocks]; (split; [|intros spy [= <-]]).
      * by apply Hkeep.
      * rewrite insert_insert_eq. by apply Hkeep.
      * eexists. split; [done|]. rewrite insert_insert_eq.
        split; [apply lookup_insert_eq|].
        destruct (spy_mock_fields None (wrapper_of self) (cls_name c) c
                    (instance_of self) kwargs)
          as (_ & _ & Hset & Hmethods & _).
        cbn [set_mock_doc _spec_set _mock_methods] in Hset, Hmethods.
        unfold refuses_set in Hdoc. fold kw in Hset, Hmethods.
        rewrite Hset, Hmethods in Hdoc. cbn [Mock_init mock_dict] in Hdoc.
        rewrite (bool_decide_eq_false_2 ("__doc__" ∈ [])) in Hdoc
          by apply not_elem_of_nil.
        cbn [negb andb] in Hdoc. rewrite andb_true_r in Hdoc.
        apply negb_false_iff, bool_decide_eq_true_1 in Hdoc. done.
    + by apply merged_kw_named.
    + unfold spec_of, param. fold kw.
      unfold kw. rewrite (merged_kw_forced _ _ _ _ _ _ (override_spec_set _ _)).
      reflexivity.
  - destruct (Mock_new_positional (wrapper_of self) a args kw st) as (msg & Hno & _).
    { eexists. apply merged_kw_forced, override_spec. }
    rewrite Hno in Hrun. injection Hrun as <- <-. cbn [mocks].
    split; [done|]. intros spy [=].
Qed.



End SpyFacts.





(** Past the type test, [make_spy] calls the target and nothing else. *)
Lemma make_spy_accepted_trace (U : Type) (rt : Py.Runtime U)
    target args w kwargs st r st' :
  Py.type_of target ∈ [Py.type_; Py.ABCMeta] →
  Spy.make_spy rt target args w kwargs st = (r, st') →
  Py.trace st' = (Py.trace st ++ [Py.EvCall target args kwargs])%list.
Proof.
  intros Hacc Hrun.
  destruct (accepted_is_class _ Hacc) as [c ->]. simpl in Hacc.
  rewrite (make_spy_accepts rt c args w kwargs st Hacc) in Hrun.
  destruct (Py.py_call rt (Py.VClass c) args kwargs (Py.world st))
    as [[inst|e] u]; injection Hrun as <- <-; reflexivity.
Qed.

(** C9.  For a target that [make_spy] accepts, the target is called once,
    with the constructor arguments given.  When the call returns an object,
    that object is the instance of the factory returned; when the call
    raises, [make_spy] raises that same exception and returns no factory. *)
Theorem make_spy_constructs_once :
  ∀ (U : Type) (rt : Py.Runtime U) target args w kwargs st,
    Py.type_of target ∈ [Py.type_; Py.ABCMeta] →
    (∀ inst u,
       Py.py_call rt target args kwargs (Py.world st) = (Py.Ok inst, u) →
       ∃ f, Spy.make_spy rt target args w kwargs st
            = (Py.Ok f, Spy.called st target args kwargs u)
            ∧ Spy.instance f = inst)
    ∧ (∀ e u,
         Py.py_call rt target args kwargs (Py.world st) = (Py.Raise e, u) →
         Spy.make_spy rt target args w kwargs st
         = (Py.Raise e, Spy.called st target args kwargs u))
    ∧ (∀ r st',
         Spy.make_spy rt target args w kwargs st = (r, st') →
         Py.trace st' = (Py.trace st ++ [Py.EvCall target args kwargs])%list
         ∧ Py.calls_made (Py.trace st') = S (Py.calls_made (Py.trace st))).
Proof.
  intros U rt target args w kwargs st Hacc.
  destruct (accepted_is_class _ Hacc) as [c ->]. simpl in Hacc.
  rewrite (make_spy_accepts rt c args w kwargs st Hacc).
  split; [|split].
  - intros inst u ->. eexists. split; reflexivity.
  - intros e u ->. reflexivity.
  - intros r st' Hrun.
    destruct (Py.py_call rt (Py.VClass c) args kwargs (Py.world st))
      as [[inst|e] u]; injection Hrun as <- <-;
      (split; [reflexivity | apply calls_made_call]).
Qed.

Lemma make_spy_constructs_once_witness :
  (Py.type_of (Py.VClass Demo.Broken) ∈ [Py.type_; Py.ABCMeta])
  ∧ Spy.make_spy Demo.demo (Py.VClass Demo.Broken) [] MockLib.MagicMock ∅
      Demo.st0
    = (Py.Raise (Py.Raised "ValueError" "cannot be built"),
       Spy.called Demo.st0 (Py.VClass Demo.Broken) [] ∅ 0).
Proof.
  assert (H : Py.type_of (Py.VClass Demo.Broken) ∈ [Py.type_; Py.ABCMeta])
    by (apply elem_of_cons; left; reflexivity).
  split; [exact H|].
  exact (proj1 (proj2 (make_spy_constructs_once nat Demo.demo
                         (Py.VClass Demo.Broken) [] MockLib.MagicMock ∅
                         Demo.st0 H))
           (Py.Raised "ValueError" "cannot be built") 0 eq_refl).
Defined.

(** A call of [make_spy] that got past the type test has called the target,
    so it cannot end in the state it started from. *)
Lemma called_is_later (U : Type) (st : Py.State U) f args kwargs u :
  Spy.called st f args kwargs u ≠ st.
Proof.
  intros H. apply (f_equal Py.trace) in H. simpl in H.
  apply (f_equal length) in H. rewrite length_app in H. simpl in H. lia.
Qed.

(** C6 (what the code does).  [make_spy] raises its own [TypeError], before
    anything is called, exactly when [type(target)] is neither [type] nor
    [ABCMeta].  That is so for a plain function, with a message saying that
    a FunctionType was received; for an object that is no class; and also
    for a class whose metaclass is another one, although such a target is a
    class-like object.  In the last two cases the message names the
    [__name__] of [target.__class__] twice, as what was received and as
    what was expected: the metaclass for a class, the class of the spec for
    a mock that has one. *)
Theorem invalid_target_kind :
  ∀ (U : Type) (rt : Py.Runtime U) target args w kwargs st,
    ((∃ msg, Spy.make_spy rt target args w kwargs st
             = (Py.Raise (Py.TypeError msg), st))
     ↔ Py.type_of target ∉ [Py.type_; Py.ABCMeta])
    ∧ (Py.type_of target = Py.FunctionType →
       Spy.make_spy rt target args w kwargs st
       = (Py.Raise (Py.TypeError
            "The target must be a class like object - received a FunctionType."),
          st))
    ∧ (Py.type_of target ∉ [Py.type_; Py.ABCMeta; Py.FunctionType] →
       Spy.make_spy rt target args w kwargs st
       = (Py.Raise (Py.TypeError
            ("Received an instance of " ++ Py.class_name_of st target
             ++ "(), expected target=" ++ Py.class_name_of st target
             ++ ".")),
          st))
    ∧ (∀ c, target = Py.VClass c →
            Py.class_name_of st target = Py.type_name (Py.cls_type c))
    ∧ (∀ cls l m c,
         target = Py.VMock cls l → Py.mocks st !! l = Some m →
         Py._spec_class m = Py.SpecIs c →
         Py.class_name_of st target = Py.cls_name c).
Proof.
  intros U rt target args w kwargs st. split; [split|split; [|split; [|split]]].
  - intros [msg Hrun] Hacc.
    destruct (accepted_is_class _ Hacc) as [c ->]. simpl in Hacc.
    rewrite (make_spy_accepts rt c args w kwargs st Hacc) in Hrun.
    destruct (Py.py_call rt (Py.VClass c) args kwargs (Py.world st))
      as [[inst|e] u]; injection Hrun as _ Hst;
      by apply called_is_later in Hst.
  - intros Hout. eexists. by apply make_spy_rejects.
  - intros Hfun. rewrite make_spy_rejects.
    + by rewrite bool_decide_eq_true_2.
    + rewrite Hfun. rewrite !not_elem_of_cons. repeat split; try discriminate.
      apply not_elem_of_nil.
  - intros Hout. rewrite !not_elem_of_cons in Hout.
    destruct Hout as (H1 & H2 & H3 & _).
    rewrite make_spy_rejects.
    + by rewrite bool_decide_eq_false_2.
    + rewrite !not_elem_of_cons. repeat split; try done. apply not_elem_of_nil.
  - by intros c ->.
  - intros cls l m c -> Hl Hspec. cbn [Py.class_name_of].
    by rewrite Hl, Hspec.
Qed.

(** C6 at [Model], a class, so neither a plain function nor an object that
    is not a type: [make_spy] raises its [TypeError] for it, before anything
    is called.  And at a spy of [Greeter] passed as the target: the message
    names [Greeter], the class of its spec, not [MagicMock]. *)
Lemma class_with_other_metaclass_is_rejected :
  Py.is_class (Py.VClass Demo.Model) = true
  ∧ Py.type_of (Py.VClass Demo.Model) ≠ Py.FunctionType
  ∧ Spy.make_spy Demo.demo (Py.VClass Demo.Model) [] MockLib.MagicMock ∅
      Demo.st0
    = (Py.Raise (Py.TypeError
         "Received an instance of ModelMeta(), expected target=ModelMeta."),
       Demo.st0)
  ∧ Spy.make_spy Demo.demo (Py.VMock "MagicMock" 0) [] MockLib.MagicMock ∅
      (Spy.__call__ Demo.demo (Demo.greeter_factory MockLib.MagicMock) [] ∅
         Demo.st1).2
    = (Py.Raise (Py.TypeError
         "Received an instance of Greeter(), expected target=Greeter."),
       (Spy.__call__ Demo.demo (Demo.greeter_factory MockLib.MagicMock) [] ∅
          Demo.st1).2).
Proof.
  split; [reflexivity|]. split; [discriminate|]. split.
  - refine (proj1 (proj2 (proj2 (invalid_target_kind nat Demo.demo
              (Py.VClass Demo.Model) [] MockLib.MagicMock ∅ Demo.st0))) _).
    rewrite !not_elem_of_cons. repeat split; try discriminate.
    apply not_elem_of_nil.
  - vm_compute. reflexivity.
Defined.

(** C7.  A class whose metaclass is neither [type] nor [ABCMeta] is a type,
    and [make_spy] raises for it the error of the instance form, naming the
    metaclass as what was received and as what was expected.  What decides
    is [type(target)]: the target is called exactly when it is [type] or
    [ABCMeta]. *)
Theorem other_metaclass_is_rejected :
  ∀ (U : Type) (rt : Py.Runtime U) (c : Py.Class) args w kwargs st,
    Py.cls_type c ∉ [Py.type_; Py.ABCMeta] →
    Py.cls_type c ≠ Py.FunctionType →
    Py.is_class (Py.VClass c) = true
    ∧ Spy.make_spy rt (Py.VClass c) args w kwargs st
      = (Py.Raise (Py.TypeError
           ("Received an instance of " ++ Py.type_name (Py.cls_type c)
            ++ "(), expected target=" ++ Py.type_name (Py.cls_type c)
            ++ ".")),
         st)
    ∧ ∀ target,
        Py.type_of target ∈ [Py.type_; Py.ABCMeta]
        ↔ Py.trace (Spy.make_spy rt target args w kwargs st).2
          = (Py.trace st ++ [Py.EvCall target args kwargs])%list.
Proof.
  intros U rt c args w kwargs st Hout Hfun.
  split; [reflexivity|]. split.
  - rewrite make_spy_rejects by done. simpl Py.type_of.
    by rewrite bool_decide_eq_false_2.
  - intros target. split.
    + intros Hacc.
      destruct (Spy.make_spy rt target args w kwargs st) as [r st'] eqn:Hrun.
      exact (make_spy_accepted_trace U rt _ _ _ _ _ _ _ Hacc Hrun).
    + intros Htr.
      destruct (decide (Py.type_of target ∈ [Py.type_; Py.ABCMeta]))
        as [|Hno]; [done|].
      rewrite make_spy_rejects in Htr by done. simpl in Htr.
      apply (f_equal length) in Htr. rewrite length_app in Htr.
      simpl in Htr. lia.
Qed.

Lemma other_metaclass_is_rejected_witness :
  (Py.cls_type Demo.Model ∉ [Py.type_; Py.ABCMeta])
  ∧ Py.cls_type Demo.Model ≠ Py.FunctionType
  ∧ Spy.make_spy Demo.demo (Py.VClass Demo.Model) [] MockLib.MagicMock ∅
      Demo.st0
    = (Py.Raise (Py.TypeError
         "Received an instance of ModelMeta(), expected target=ModelMeta."),
       Demo.st0).
Proof.
  assert (H1 : Py.cls_type Demo.Model ∉ [Py.type_; Py.ABCMeta]).
  { rewrite !not_elem_of_cons. repeat split; try discriminate.
    apply not_elem_of_nil. }
  assert (H2 : Py.cls_type Demo.Model ≠ Py.FunctionType) by discriminate.
  split; [exact H1|]. split; [exact H2|].
  exact (proj1 (proj2 (other_metaclass_is_rejected nat Demo.demo Demo.Model
                         [] MockLib.MagicMock ∅ Demo.st0 H1 H2))).
Defined.




(* ===================================================================== *)
(** ** Properties of [AsyncContextManagerMock] *)
(* ===================================================================== *)

(** C8 (what the code does).  The body of [__aenter__] takes no argument
    besides the mock and yields that very mock, leaving the state as it
    was.  But the method is not what the enter operation of an instance
    runs.  On [AsyncContextManagerMock()], [_mock_set_magics] of [MagicMock]
    has set an entry of its own for [__aenter__] on the class of the
    instance, and reading [__aenter__] finds that entry, which hides the
    method.  The same holds for a spy whose target has [__aenter__]; only on
    a spy whose target has none is the method of the class found. *)
Theorem aenter_is_hidden_on_an_instance :
  ∀ (U : Type) (rt : Py.Runtime U),
    (∀ self (st : Py.State U), Async.__aenter__ self st = (Py.Ok self, st))
    ∧ (∀ st, ∃ l st',
         MockLib.Mock_new rt Async.AsyncContextManagerMock [] ∅ st
         = (Py.Ok l, st')
         ∧ Spy.getattr_spy st' (Py.VMock "AsyncContextManagerMock" l)
             "__aenter__"
           = Some (MockLib.FoundMagic "__aenter__"))
    ∧ (∀ target targs tkwargs st0 f st1,
         Spy.make_spy rt target targs Async.AsyncContextManagerMock tkwargs
           st0 = (Py.Ok f, st1) →
         ∃ c, target = Py.VClass c ∧
         ∀ kwargs st spy st',
           (∀ k, is_Some (kwargs !! k) → k ∈ MockLib.Mock_named) →
           Spy.__call__ rt f [] kwargs st = (Py.Ok spy, st') →
           Spy.getattr_spy st' spy "__aenter__"
           = Some (if bool_decide ("__aenter__" ∈ Py.cls_dir c)
                   then MockLib.FoundMagic "__aenter__"
                   else MockLib.FoundOwn "__aenter__")).
Proof.
  intros U rt. split; [reflexivity|]. split.
  - intros st. eexists _, _. split.
    + apply Mock_new_named; [|reflexivity].
      intros k [v Hk]. by rewrite lookup_empty in Hk.
    + unfold Spy.getattr_spy. cbn [Py.mocks]. rewrite lookup_insert_eq.
      reflexivity.
  - intros target targs tkwargs st0 f st1 Hmake.
    destruct (make_spy_ok rt _ _ _ _ _ _ _ Hmake)
      as (c & u & -> & Hacc & Hcall & -> & Ht & Hi & Hw).
    exists c. split; [done|].
    intros kwargs st spy st' Hnamed Hrun.
    destruct (factory_call_named rt _ _ _ _ _ _ _ Ht Hnamed Hrun)
      as (_ & Hnew).
    destruct (Hnew spy eq_refl) as (l & -> & Hl & Hdoc).
    unfold Spy.getattr_spy. rewrite Hl. cbn [fmap option_fmap option_map].
    destruct (spy_mock_fields rt
                (Py.py_doc rt (Spy.instance_of f) (Py.world st))
                (Spy.wrapper_of f) (Py.cls_name c) c (Spy.instance_of f)
                kwargs)
      as (Hclass & _ & _ & Hmethods & _ & _ & Hmagics & Hdict).
    unfold MockLib.Mock_getattr.
    rewrite Hclass, Hmagics, Hw.
    rewrite (bool_decide_eq_false_2 ("__aenter__" ∈ Py.mock_dict _)).
    2: { intros Hin. apply Hdict in Hin. discriminate. }
    f_equal.
    destruct (decide ("__aenter__" ∈ Py.cls_dir c)) as [Hspec|Hspec].
    + rewrite (bool_decide_eq_true_2 ("__aenter__" ∈ Py.cls_dir c)) by done.
      rewrite bool_decide_eq_true_2; [done|].
      unfold MockLib._mock_set_magics. cbn [Async.AsyncContextManagerMock
        Py.mc_kind Py.is_magic].
      apply list_elem_of_filter. split; [exact Hspec|].
      apply (bool_decide_unpack _). by vm_compute.
    + rewrite (bool_decide_eq_false_2 ("__aenter__" ∈ Py.cls_dir c)) by done.
      rewrite bool_decide_eq_false_2.
      2: { intros Hin. by apply set_magics_in_spec in Hin. }
      rewrite bool_decide_eq_true_2; [done|].
      cbn [Async.AsyncContextManagerMock Py.mc_members].
      apply elem_of_cons. by left.
Qed.

(** C8 at [AsyncContextManagerMock()] and at a spy of [Session], a class
    with [__aenter__]: on both, reading [__aenter__] finds the entry of the
    library.  On a spy of [Greeter], which has none, it finds the method. *)
Lemma aenter_on_an_instance_and_on_spies :
  (∃ st',
     MockLib.Mock_new Demo.demo Async.AsyncContextManagerMock [] ∅ Demo.st0
     = (Py.Ok 0, st')
     ∧ Spy.getattr_spy st' (Py.VMock "AsyncContextManagerMock" 0)
         "__aenter__"
       = Some (MockLib.FoundMagic "__aenter__"))
  ∧ Spy.make_spy Demo.demo (Py.VClass Demo.Session) []
      Async.AsyncContextManagerMock ∅ Demo.st0
    = (Py.Ok Demo.session_factory, Demo.st1_session)
  ∧ Spy.getattr_spy
      (Spy.__call__ Demo.demo Demo.session_factory [] ∅
         Demo.st1_session).2
      (Py.VMock "AsyncContextManagerMock" 0) "__aenter__"
    = Some (MockLib.FoundMagic "__aenter__")
  ∧ Spy.getattr_spy
      (Spy.__call__ Demo.demo
         (Demo.greeter_factory Async.AsyncContextManagerMock) [] ∅
         Demo.st1).2
      (Py.VMock "AsyncContextManagerMock" 0) "__aenter__"
    = Some (MockLib.FoundOwn "__aenter__").
Proof.
  destruct (aenter_is_hidden_on_an_instance nat Demo.demo)
    as (_ & Hbare & _).
  split.
  - destruct (Hbare Demo.st0) as (l & st' & Hnew & Hget).
    assert (Hl : l = 0).
    { apply (f_equal fst) in Hnew. vm_compute in Hnew. congruence. }
    subst l. by exists st'.
  - split; [reflexivity|]. split; vm_compute; reflexivity.
Defined.

(** C5 (what the code does).  Whatever the three arguments, [__aexit__],
    awaited, yields a new [Future] whose result is [None].  It is the future
    that is yielded, not [None]: its truth value is true, so [async with]
    takes the exception in flight as handled.  Nothing else changes: no mock
    is touched and no call is logged. *)
Theorem aexit_yields_a_future :
  ∀ (U : Type) (self exc_type exc tb : Py.Value) (st : Py.State U),
    let l := fresh (dom (Py.futures st)) in
    ∃ st',
      Async.__aexit__ self exc_type exc tb st = (Py.Ok (Py.VFuture l), st')
      ∧ Py.futures st !! l = None
      ∧ Py.futures st' !! l = Some (Py.Finished Py.VNone)
      ∧ Async.suppresses (Py.VFuture l) = true
      ∧ Py.mocks st' = Py.mocks st
      ∧ Py.trace st' = Py.trace st
      ∧ Py.world st' = Py.world st.
Proof.
  intros U self exc_type exc tb st l.
  unfold Async.__aexit__, Py.bind, Async.Future_new, Async.set_result, Py.ret.
  cbn [Py.futures Py.world Py.mocks Py.trace]. fold l.
  rewrite lookup_insert_eq. eexists. split; [reflexivity|].
  cbn [Py.futures Py.world Py.mocks Py.trace].
  split; [apply not_elem_of_dom, is_fresh|].
  split; [apply lookup_insert_eq|]. done.
Qed.


(* ===================================================================== *)
(** ** Further properties of the subset checker *)
(* ===================================================================== *)

Section SubsetMore.
Import Subset.
Context {V : Type}.

(** [dict(pairs)] is the map of the pairs read from the last to the first. *)
Lemma fold_insert_list_to_map (items : list (PairTypes V)) (d : gmap string V) :
  fold_left (λ d kv, <[kv.1 := kv.2]> d) items d
  = list_to_map (reverse items) ∪ d.
Proof.
  revert d. induction items as [|[k v] items IH]; intros d.
  - simpl. by rewrite map_empty_union.
  - cbn [fold_left fst snd]. rewrite IH, reverse_cons.
    rewrite (list_to_map_app (M := gmap string) (reverse items) [(k, v)]).
    cbn [list_to_map foldr fst snd uncurry].
    rewrite insert_empty, <- map_union_assoc, <- insert_union_singleton_l.
    done.
Qed.

Lemma dict_of_pairs_list_to_map (items : list (PairTypes V)) :
  dict_of_pairs items = list_to_map (reverse items).
Proof.
  unfold dict_of_pairs. by rewrite fold_insert_list_to_map, map_union_empty.
Qed.

Lemma dict_of_pairs_nodup (items : list (PairTypes V)) :
  NoDup items.*1 → dict_of_pairs items = list_to_map items.
Proof.
  intros Hnd. rewrite dict_of_pairs_list_to_map.
  apply list_to_map_proper; [|apply reverse_Permutation].
  by rewrite fmap_reverse, reverse_Permutation.
Qed.

End SubsetMore.

Lemma value_eq_refl (v : Subset.ValueTypes) : Subset.value_eq v v = true.
Proof.
  destruct v as [z|s|b|[m e|s]|[]]; simpl;
    try (by apply bool_decide_eq_true_2); try reflexivity.
  - apply Z.eqb_refl.
  - unfold Subset.dyadic_eqb. apply Z.eqb_refl.
  - by destruct s.
Qed.

(** X1.  A collection is a subset of itself as soon as each of its values is
    equal to itself under the equality test in use. *)
Theorem is_subset_of_reflexive :
  ∀ (V : Type) (eqv : V → V → bool) (c : Subset.CollectionTypes V),
    (∀ k v, Subset.dict_ c !! k = Some v → eqv v v = true) →
    Subset.is_subset_of eqv c c = true.
Proof.
  intros V eqv c Hrefl. unfold Subset.is_subset_of.
  apply items_le_spec. intros k v Hk. exists v. eauto.
Qed.

Lemma is_subset_of_reflexive_witness :
  (∀ k v, Subset.dict_ (Subset.CDict Demo.a1b2) !! k = Some v →
          Subset.value_eq v v = true)
  ∧ Subset.is_subset_of Subset.value_eq
      (Subset.CDict Demo.a1b2) (Subset.CDict Demo.a1b2) = true.
Proof.
  assert (H : ∀ (k : string) v,
            Subset.dict_ (Subset.CDict Demo.a1b2) !! k = Some v →
            Subset.value_eq v v = true)
    by (intros k v _; apply value_eq_refl).
  split; [exact H|].
  exact (is_subset_of_reflexive _ Subset.value_eq (Subset.CDict Demo.a1b2) H).
Defined.

(** X2.  Containment composes: when the equality test is transitive, a
    subset of a subset of [a] is a subset of [a]. *)
Theorem is_subset_of_transitive :
  ∀ (V : Type) (eqv : V → V → bool) (a b c : Subset.CollectionTypes V),
    (∀ x y z, eqv x y = true → eqv y z = true → eqv x z = true) →
    Subset.is_subset_of eqv a b = true →
    Subset.is_subset_of eqv b c = true →
    Subset.is_subset_of eqv a c = true.
Proof.
  intros V eqv a b c Htrans Hab Hbc. unfold Subset.is_subset_of in *.
  apply items_le_spec in Hab. apply items_le_spec in Hbc.
  apply items_le_spec. intros k v Hk.
  destruct (Hbc k v Hk) as (vb & Hb & Hvb).
  destruct (Hab k vb Hb) as (va & Ha & Hva).
  exists va. split; [done|]. by apply (Htrans va vb v).
Qed.

Lemma is_subset_of_transitive_witness :
  (∀ x y z : Z, Z.eqb x y = true → Z.eqb y z = true → Z.eqb x z = true)
  ∧ Subset.is_subset_of Z.eqb
      (Subset.CList [("a", 1%Z); ("b", 2%Z); ("c", 3%Z)])
      (Subset.CList [("a", 1%Z); ("b", 2%Z)]) = true
  ∧ Subset.is_subset_of Z.eqb
      (Subset.CList [("a", 1%Z); ("b", 2%Z)])
      (Subset.CList [("b", 2%Z)]) = true
  ∧ Subset.is_subset_of Z.eqb
      (Subset.CList [("a", 1%Z); ("b", 2%Z); ("c", 3%Z)])
      (Subset.CList [("b", 2%Z)]) = true.
Proof.
  assert (Ht : ∀ x y z : Z,
            Z.eqb x y = true → Z.eqb y z = true → Z.eqb x z = true).
  { intros x y z Hxy Hyz. apply Z.eqb_eq in Hxy, Hyz. apply Z.eqb_eq.
    congruence. }
  assert (H1 : Subset.is_subset_of Z.eqb
                 (Subset.CList [("a", 1%Z); ("b", 2%Z); ("c", 3%Z)])
                 (Subset.CList [("a", 1%Z); ("b", 2%Z)]) = true)
    by (vm_compute; reflexivity).
  assert (H2 : Subset.is_subset_of Z.eqb
                 (Subset.CList [("a", 1%Z); ("b", 2%Z)])
                 (Subset.CList [("b", 2%Z)]) = true)
    by (vm_compute; reflexivity).
  split; [exact Ht|]. split; [exact H1|]. split; [exact H2|].
  exact (is_subset_of_transitive Z Z.eqb _ _ _ Ht H1 H2).
Defined.

(** X3.  Two collections that contain each other have the same keys; when
    the equality test only accepts identical values, their mappings are the
    same mapping. *)
Theorem mutual_inclusion_same_mapping :
  ∀ (V : Type) (eqv : V → V → bool) (a b : Subset.CollectionTypes V),
    Subset.is_subset_of eqv a b = true →
    Subset.is_subset_of eqv b a = true →
    dom (Subset.dict_ a) = dom (Subset.dict_ b)
    ∧ ((∀ x y, eqv x y = true → x = y) → Subset.dict_ a = Subset.dict_ b).
Proof.
  intros V eqv a b Hab Hba. unfold Subset.is_subset_of in *.
  apply items_le_spec in Hab. apply items_le_spec in Hba. split.
  - apply set_eq. intros k. rewrite !elem_of_dom. split; intros [v Hv].
    + destruct (Hba k v Hv) as (v' & Hv' & _). eauto.
    + destruct (Hab k v Hv) as (v' & Hv' & _). eauto.
  - intros Hsound. apply map_eq. intros k.
    destruct (Subset.dict_ a !! k) as [va|] eqn:Ha.
    + destruct (Hba k va Ha) as (vb & Hb & Heq).
      rewrite Hb. f_equal. symmetry. by apply Hsound.
    + destruct (Subset.dict_ b !! k) as [vb|] eqn:Hb; [|done].
      destruct (Hab k vb Hb) as (va & Ha' & _). congruence.
Qed.

Lemma mutual_inclusion_same_mapping_witness :
  Subset.is_subset_of Z.eqb
    (Subset.CList [("a", 1%Z); ("b", 2%Z)])
    (Subset.CTuple [("b", 2%Z); ("a", 1%Z)]) = true
  ∧ Subset.is_subset_of Z.eqb
      (Subset.CTuple [("b", 2%Z); ("a", 1%Z)])
      (Subset.CList [("a", 1%Z); ("b", 2%Z)]) = true
  ∧ dom (Subset.dict_ (Subset.CList [("a", 1%Z); ("b", 2%Z)]))
    = dom (Subset.dict_ (Subset.CTuple [("b", 2%Z); ("a", 1%Z)])).
Proof.
  assert (H1 : Subset.is_subset_of Z.eqb
                 (Subset.CList [("a", 1%Z); ("b", 2%Z)])
                 (Subset.CTuple [("b", 2%Z); ("a", 1%Z)]) = true)
    by (vm_compute; reflexivity).
  assert (H2 : Subset.is_subset_of Z.eqb
                 (Subset.CTuple [("b", 2%Z); ("a", 1%Z)])
                 (Subset.CList [("a", 1%Z); ("b", 2%Z)]) = true)
    by (vm_compute; reflexivity).
  split; [exact H1|]. split; [exact H2|].
  exact (proj1 (mutual_inclusion_same_mapping Z Z.eqb _ _ H1 H2)).
Defined.

(** X4.  When no key occurs twice, the order of the pairs does not matter:
    a rearrangement of the pairs gives the same mapping, hence the same
    answer in either argument.  This is what makes the answer for a set of
    pairs independent of the order in which the set is iterated. *)
Theorem pair_order_is_irrelevant :
  ∀ (V : Type) (items items' : list (Subset.PairTypes V)),
    NoDup items.*1 →
    items ≡ₚ items' →
    Subset.dict_ (Subset.CSet items) = Subset.dict_ (Subset.CSet items')
    ∧ ∀ (eqv : V → V → bool) (other : Subset.CollectionTypes V),
        Subset.is_subset_of eqv (Subset.CSet items) other
        = Subset.is_subset_of eqv (Subset.CSet items') other
        ∧ Subset.is_subset_of eqv other (Subset.CSet items)
          = Subset.is_subset_of eqv other (Subset.CSet items').
Proof.
  intros V items items' Hnd Hperm.
  assert (Hsame : Subset.dict_of_pairs items = Subset.dict_of_pairs items').
  { rewrite !dict_of_pairs_nodup; [by apply list_to_map_proper| |done].
    by rewrite <- Hperm. }
  split; [exact Hsame|]. intros eqv other.
  unfold Subset.is_subset_of. cbn [Subset.dict_]. by rewrite Hsame.
Qed.

Lemma pair_order_is_irrelevant_witness :
  NoDup (fst <$> [("a", 1%Z); ("b", 2%Z)])
  ∧ [("a", 1%Z); ("b", 2%Z)] ≡ₚ [("b", 2%Z); ("a", 1%Z)]
  ∧ Subset.dict_ (Subset.CSet [("a", 1%Z); ("b", 2%Z)])
    = Subset.dict_ (Subset.CSet [("b", 2%Z); ("a", 1%Z)]).
Proof.
  assert (Hnd : NoDup (fst <$> [("a", 1%Z); ("b", 2%Z)])).
  { apply NoDup_cons. split; [|apply NoDup_singleton].
    intros Hin. apply list_elem_of_singleton in Hin. discriminate. }
  assert (Hp : [("a", 1%Z); ("b", 2%Z)] ≡ₚ [("b", 2%Z); ("a", 1%Z)])
    by apply perm_swap.
  split; [exact Hnd|]. split; [exact Hp|].
  exact (proj1 (pair_order_is_irrelevant Z _ _ Hnd Hp)).
Defined.

(** X5.  Passing a dictionary as the list of its items changes nothing: the
    items give back the same mapping, and the answer is the same in either
    argument. *)
Theorem dict_items_round_trip :
  ∀ (V : Type) (d : gmap string V),
    Subset.dict_ (Subset.CList (map_to_list d)) = d
    ∧ ∀ (eqv : V → V → bool) (other : Subset.CollectionTypes V),
        Subset.is_subset_of eqv (Subset.CList (map_to_list d)) other
        = Subset.is_subset_of eqv (Subset.CDict d) other
        ∧ Subset.is_subset_of eqv other (Subset.CList (map_to_list d))
          = Subset.is_subset_of eqv other (Subset.CDict d).
Proof.
  intros V d.
  assert (Hback : Subset.dict_of_pairs (map_to_list d) = d).
  { rewrite dict_of_pairs_nodup by apply NoDup_fst_map_to_list.
    apply list_to_map_to_list. }
  split; [exact Hback|]. intros eqv other.
  unfold Subset.is_subset_of. cbn [Subset.dict_]. by rewrite Hback.
Qed.

(* ===================================================================== *)
(** ** Further properties of the factory *)
(* ===================================================================== *)

(** X6.  A factory made by [make_spy] cannot be called with positional
    arguments: the first one would be the spec, which the factory already
    passes by keyword, so the wrapper class raises [TypeError] when it binds
    its arguments.  No mock is made or touched and the target is not
    called.  The message is that of [Signature.bind_partial] for a wrapper
    class without [AsyncMockMixin], and that of the call of
    [CallableMixin.__init__] for one with it. *)
Theorem positional_arguments_are_refused :
  ∀ (U : Type) (rt : Py.Runtime U) target targs w tkwargs st0 f st1,
    Spy.make_spy rt target targs w tkwargs st0 = (Py.Ok f, st1) →
    ∀ a args kwargs st,
      ∃ msg st',
        Spy.__call__ rt f (a :: args) kwargs st
        = (Py.Raise (Py.TypeError msg), st')
        ∧ Py.mocks st' = Py.mocks st
        ∧ Py.world st' = Py.world st
        ∧ Py.calls_made (Py.trace st') = Py.calls_made (Py.trace st)
        ∧ (Py.is_async (Py.mc_kind w) = false → kwargs !! "self" = None →
           msg = "multiple values for argument 'spec'")
        ∧ (Py.is_async (Py.mc_kind w) = true → args = [] →
           kwargs !! "self" = None →
           msg = "CallableMixin.__init__() got multiple values for argument 'spec'").
Proof.
  intros U rt target targs w tkwargs st0 f st1 Hmake a args kwargs st.
  destruct (make_spy_ok rt _ _ _ _ _ _ _ Hmake)
    as (c & u & -> & _ & _ & _ & Ht & _ & Hw).
  rewrite (factory_call_run rt f c (a :: args) kwargs st Ht). cbv zeta.
  destruct (Mock_new_positional rt (Spy.wrapper_of f) a args
              (Spy.merged_kw (Py.cls_name c) (Py.VClass c)
                 (Spy.instance_of f) kwargs) st)
    as (msg & Hno & Hsync & Hasync).
  { eexists. apply merged_kw_forced, override_spec. }
  rewrite Hno. exists msg. eexists. split; [reflexivity|].
  cbn [Spy.logged Py.mocks Py.world Py.trace].
  split; [done|]. split; [done|]. split; [apply calls_made_wrapper|].
  rewrite Hw in Hsync, Hasync.
  assert (Hself : Spy.merged_kw (Py.cls_name c) (Py.VClass c)
                    (Spy.instance_of f) kwargs !! "self" = kwargs !! "self").
  { apply merged_kw_other. rewrite !not_elem_of_cons.
    repeat split; try discriminate. apply not_elem_of_nil. }
  rewrite Hself in Hsync, Hasync. split; [exact Hsync | exact Hasync].
Qed.

Lemma positional_arguments_are_refused_witness :
  Spy.make_spy Demo.demo (Py.VClass Demo.Greeter) [] MockLib.AsyncMock ∅
    Demo.st0
  = (Py.Ok (Demo.greeter_factory MockLib.AsyncMock), Demo.st1)
  ∧ ∃ st',
      Spy.__call__ Demo.demo (Demo.greeter_factory MockLib.AsyncMock)
        [Py.VInt 1] ∅ Demo.st1
      = (Py.Raise (Py.TypeError
           "CallableMixin.__init__() got multiple values for argument 'spec'"),
         st')
      ∧ Py.mocks st' = Py.mocks Demo.st1.
Proof.
  assert (H : Spy.make_spy Demo.demo (Py.VClass Demo.Greeter) []
                MockLib.AsyncMock ∅ Demo.st0
              = (Py.Ok (Demo.greeter_factory MockLib.AsyncMock), Demo.st1))
    by reflexivity.
  split; [exact H|].
  destruct (positional_arguments_are_refused nat Demo.demo _ _ _ _ _ _ _ H
              (Py.VInt 1) [] ∅ Demo.st1)
    as (msg & st' & Hrun & Hmocks & _ & _ & _ & Hasync).
  exists st'. rewrite <- (Hasync eq_refl eq_refl eq_refl).
  split; [exact Hrun | exact Hmocks].
Defined.

(** X7.  Every spy is a new object.  The mock a call returns did not exist
    before the call, and a later call of the factory, from any state in
    which that mock still is, returns a different mock.  When the keywords
    of the later call are parameters of the constructor of the wrapper
    class, it leaves the first mock as it was. *)
Theorem every_spy_is_a_new_mock :
  ∀ (U : Type) (rt : Py.Runtime U) target targs w tkwargs st0 f st1,
    Spy.make_spy rt target targs w tkwargs st0 = (Py.Ok f, st1) →
    ∀ args kwargs st spy st',
      Spy.__call__ rt f args kwargs st = (Py.Ok spy, st') →
      ∃ l m,
        spy = Py.VMock (Py.mc_name w) l
        ∧ Py.mocks st !! l = None
        ∧ Py.mocks st' !! l = Some m
        ∧ ∀ args2 kwargs2 st2 spy2 st2',
            Py.mocks st2 !! l = Some m →
            Spy.__call__ rt f args2 kwargs2 st2 = (Py.Ok spy2, st2') →
            spy2 ≠ spy
            ∧ ((∀ k, is_Some (kwargs2 !! k) → k ∈ MockLib.Mock_named) →
               Py.mocks st2' !! l = Some m).
Proof.
  intros U rt target targs w tkwargs st0 f st1 Hmake args kwargs st spy st'
    Hrun.
  destruct (make_spy_ok rt _ _ _ _ _ _ _ Hmake)
    as (c & u & -> & _ & _ & _ & Ht & _ & Hw).
  destruct (factory_call_facts rt _ _ _ _ _ _ _ Ht Hrun)
    as (_ & _ & _ & Hnew).
  destruct (Hnew spy eq_refl) as (l & m & -> & _ & Hfresh & Hl & _).
  rewrite Hw in *. exists l, m. split; [done|]. split; [done|].
  split; [exact Hl|].
  intros args2 kwargs2 st2 spy2 st2' Hstill Hrun2.
  destruct (factory_call_facts rt _ _ _ _ _ _ _ Ht Hrun2)
    as (_ & _ & _ & Hnew2).
  destruct (Hnew2 spy2 eq_refl) as (l2 & m2 & -> & _ & Hfresh2 & _).
  split.
  - rewrite Hw. intros [= ->]. rewrite Hfresh2 in Hstill. discriminate.
  - intros Hnamed.
    destruct (factory_call_named rt _ _ _ _ _ _ _ Ht Hnamed Hrun2)
      as (Hkeep & _).
    by apply Hkeep.
Qed.

Lemma every_spy_is_a_new_mock_witness :
  Spy.make_spy Demo.demo (Py.VClass Demo.Greeter) [] MockLib.MagicMock ∅
    Demo.st0
  = (Py.Ok (Demo.greeter_factory MockLib.MagicMock), Demo.st1)
  ∧ Spy.__call__ Demo.demo (Demo.greeter_factory MockLib.MagicMock) [] ∅
      Demo.st1
    = (Py.Ok (Py.VMock "MagicMock" 0),
       (Spy.__call__ Demo.demo (Demo.greeter_factory MockLib.MagicMock) [] ∅
          Demo.st1).2)
  ∧ ∃ l, Py.VMock "MagicMock" 0 = Py.VMock "MagicMock" l
         ∧ Py.mocks Demo.st1 !! l = None.
Proof.
  assert (H : Spy.make_spy Demo.demo (Py.VClass Demo.Greeter) []
                MockLib.MagicMock ∅ Demo.st0
              = (Py.Ok (Demo.greeter_factory MockLib.MagicMock), Demo.st1))
    by reflexivity.
  assert (Hrun : Spy.__call__ Demo.demo
                   (Demo.greeter_factory MockLib.MagicMock) [] ∅ Demo.st1
                 = (Py.Ok (Py.VMock "MagicMock" 0),
                    (Spy.__call__ Demo.demo
                       (Demo.greeter_factory MockLib.MagicMock) [] ∅
                       Demo.st1).2))
    by (vm_compute; reflexivity).
  split; [exact H|]. split; [exact Hrun|].
  destruct (every_spy_is_a_new_mock nat Demo.demo _ _ _ _ _ _ _ H
              _ _ _ _ _ Hrun) as (l & m & Heq & Hfresh & _).
  exists l. split; [exact Heq | exact Hfresh].
Defined.

(** X8.  The spy carries the documentation of the instance: the [__doc__]
    of the mock a call returns is the [__doc__] that the instance had when
    the call was made. *)
Theorem spy_doc_is_the_instance_doc :
  ∀ (U : Type) (rt : Py.Runtime U) target targs w tkwargs st0 f st1,
    Spy.make_spy rt target targs w tkwargs st0 = (Py.Ok f, st1) →
    ∀ args kwargs st spy st',
      Spy.__call__ rt f args kwargs st = (Py.Ok spy, st') →
      ∃ l m,
        spy = Py.VMock (Py.mc_name w) l
        ∧ Py.mocks st' !! l = Some m
        ∧ Py.mock_doc m = Py.py_doc rt (Spy.instance f) (Py.world st).
Proof.
  intros U rt target targs w tkwargs st0 f st1 Hmake args kwargs st spy st'
    Hrun.
  destruct (make_spy_ok rt _ _ _ _ _ _ _ Hmake)
    as (c & u & -> & _ & _ & _ & Ht & Hi & Hw).
  destruct (factory_call_facts rt _ _ _ _ _ _ _ Ht Hrun)
    as (_ & _ & _ & Hnew).
  destruct (Hnew spy eq_refl) as (l & m & -> & _ & _ & Hl & Hdoc).
  rewrite Hw in *. exists l, m. split; [done|]. split; [exact Hl|].
  unfold Spy.instance. by rewrite <- Hi.
Qed.

Lemma spy_doc_is_the_instance_doc_witness :
  Spy.make_spy Demo.demo (Py.VClass Demo.Greeter) [] MockLib.MagicMock ∅
    Demo.st0
  = (Py.Ok (Demo.greeter_factory MockLib.MagicMock), Demo.st1)
  ∧ ∃ l m,
      Py.mocks (Spy.__call__ Demo.demo
                  (Demo.greeter_factory MockLib.MagicMock) [] ∅
                  Demo.st1).2 !! l = Some m
      ∧ Py.mock_doc m = Some "Says hello.".
Proof.
  assert (H : Spy.make_spy Demo.demo (Py.VClass Demo.Greeter) []
                MockLib.MagicMock ∅ Demo.st0
              = (Py.Ok (Demo.greeter_factory MockLib.MagicMock), Demo.st1))
    by reflexivity.
  assert (Hrun : Spy.__call__ Demo.demo
                   (Demo.greeter_factory MockLib.MagicMock) [] ∅ Demo.st1
                 = (Py.Ok (Py.VMock "MagicMock" 0),
                    (Spy.__call__ Demo.demo
                       (Demo.greeter_factory MockLib.MagicMock) [] ∅
                       Demo.st1).2))
    by (vm_compute; reflexivity).
  split; [exact H|].
  destruct (spy_doc_is_the_instance_doc nat Demo.demo _ _ _ _ _ _ _ H
              _ _ _ _ _ Hrun) as (l & m & _ & Hl & Hdoc).
  exists l, m. split; [exact Hl | exact Hdoc].
Defined.

(** X11.  The answer survives growth of the superset and shrinking of the
    subset: when [sub] is contained in [sup], every part of [sub] is
    contained in every mapping that extends [sup]. *)
Theorem is_subset_of_monotone :
  ∀ (V : Type) (eqv : V → V → bool)
    (sup sup' sub sub' : Subset.CollectionTypes V),
    Subset.is_subset_of eqv sup sub = true →
    Subset.dict_ sup ⊆ Subset.dict_ sup' →
    Subset.dict_ sub' ⊆ Subset.dict_ sub →
    Subset.is_subset_of eqv sup' sub' = true.
Proof.
  intros V eqv sup sup' sub sub' H Hsup Hsub.
  unfold Subset.is_subset_of in *.
  apply items_le_spec in H. apply items_le_spec. intros k v Hk.
  destruct (H k v (lookup_weaken _ _ _ _ Hk Hsub)) as (v' & Hv' & Heq).
  exists v'. split; [|done]. by apply (lookup_weaken _ _ _ _ Hv' Hsup).
Qed.

Lemma is_subset_of_monotone_witness :
  Subset.is_subset_of Subset.value_eq
    (Subset.CDict Demo.a1) (Subset.CDict Demo.a1) = true
  ∧ Subset.dict_ (Subset.CDict Demo.a1) ⊆ Subset.dict_ (Subset.CDict Demo.a1b2)
  ∧ Subset.dict_ (Subset.CDict (∅ : gmap string Subset.ValueTypes))
    ⊆ Subset.dict_ (Subset.CDict Demo.a1)
  ∧ Subset.is_subset_of Subset.value_eq
      (Subset.CDict Demo.a1b2) (Subset.CDict ∅) = true.
Proof.
  assert (H : Subset.is_subset_of Subset.value_eq
                (Subset.CDict Demo.a1) (Subset.CDict Demo.a1) = true)
    by (vm_compute; reflexivity).
  assert (H1 : Subset.dict_ (Subset.CDict Demo.a1)
               ⊆ Subset.dict_ (Subset.CDict Demo.a1b2)).
  { cbn [Subset.dict_]. unfold Demo.a1b2, Demo.a1.
    apply insert_subseteq. by rewrite lookup_insert_ne. }
  assert (H2 : Subset.dict_ (Subset.CDict (∅ : gmap string Subset.ValueTypes))
               ⊆ Subset.dict_ (Subset.CDict Demo.a1))
    by apply map_empty_subseteq.
  split; [exact H|]. split; [exact H1|]. split; [exact H2|].
  exact (is_subset_of_monotone _ Subset.value_eq _ _ _ _ H H1 H2).
Defined.

